(** * Godot Bridge client: a shallow embedding of [godot_bridge/client.py]

    The development follows the Python module top to bottom:
    - Python values as they come out of [json.loads] ([pyval]);
    - the builtins the module leans on ([str] on integers, [str.strip],
      truthiness, f-string formatting);
    - the configuration loader [GodotClient._load_config];
    - the WebSocket transport as a scripted environment with a log of the
      transport calls the client makes;
    - [GodotClient.call], [GodotClient.connect], [GodotClient.close] and the
      [godot_call] convenience wrapper, in explicit state passing style;
    - the commands of [godot_bridge/main.py] that are built on them, with
      what they print and how they end;
    - the properties of the protocol client and of the commands. *)

From stdpp Require Import base strings gmap list.
From Stdlib Require Import ZArith Ascii String DecimalString DecimalPos DecimalZ SpecFloat.

Set Warnings "-register-all".
Local Open Scope Z_scope.
Local Open Scope string_scope.

(** ** Python values *)

(** What [json.loads] can produce: [None], booleans, integers, floats,
    strings, lists and dictionaries with string keys.  A [dict] is only used
    through [get], [in] and indexing, so it is a finite map. *)
Inductive pyval : Type :=
| PNone
| PBool (b : bool)
| PInt (n : Z)
| PFloat (f : spec_float)
| PStr (s : string)
| PList (l : list pyval)
| PDict (d : gmap string pyval).

Abbreviation pydict := (gmap string pyval).

(** [bool(v)]: the truth value Python's [if v:] tests. *)
Definition truthy (v : pyval) : bool :=
  match v with
  | PNone => false
  | PBool b => b
  | PInt n => negb (n =? 0)%Z
  | PFloat (S754_zero _) => false
  | PFloat _ => true
  | PStr s => negb (String.eqb s "")
  | PList l => match l with [] => false | _ => true end
  | PDict d => negb (bool_decide (d = ∅))
  end.

(** [d.get(key, dflt)] *)
Definition dict_get (d : pydict) (key : string) (dflt : pyval) : pyval :=
  default dflt (d !! key).

(** [key in d] *)
Definition dict_has (d : pydict) (key : string) : bool :=
  bool_decide (is_Some (d !! key)).

(** [str(n)] for an [int]: decimal digits, a leading minus sign for
    negative numbers, no leading zeros. *)
Definition str (n : Z) : string := NilZero.string_of_int (Z.to_int n).

(** [int(s)] restricted to what [str] prints; used to read identifiers
    back as numbers. *)
Definition int_of_str (s : string) : option Z :=
  Z.of_int <$> NilZero.int_of_string s.

(** [c.isspace()] on the code points below 256. *)
Definition isspace (c : ascii) : bool :=
  let n := nat_of_ascii c in
  ((9 <=? n) && (n <=? 13) || (28 <=? n) && (n <=? 32)
   || (n =? 133) || (n =? 160))%nat.

Fixpoint lstrip (s : string) : string :=
  match s with
  | String c s' => if isspace c then lstrip s' else s
  | EmptyString => EmptyString
  end.

Definition rstrip (s : string) : string := String.rev (lstrip (String.rev s)).

(** [s.strip()] *)
Definition strip (s : string) : string := rstrip (lstrip s).

(** ** Exceptions and outcomes *)

(** The exceptions that can leave the client's methods.  All of them derive
    from [Exception], so [except Exception] in [connect] catches each. *)
Inductive exn : Type :=
| RuntimeError (msg : string)
| RPCError (code message data : pyval)
| JSONDecodeError
| AttributeError
| ValidationError
| OSError
| ConnectionClosed.

(** A method returns, raises, or never comes back: [recv] blocks for as long
    as the peer stays silent. *)
Inductive outcome (A : Type) : Type :=
| Returns (a : A)
| Raises (e : exn)
| Blocks.
Arguments Returns {A} a.
Arguments Raises {A} e.
Arguments Blocks {A}.

Definition is_rpc_error {A} (o : outcome A) : bool :=
  match o with Raises (RPCError _ _ _) => true | _ => false end.

Definition is_transport_or_decode_failure {A} (o : outcome A) : bool :=
  match o with
  | Raises ConnectionClosed | Raises OSError | Raises JSONDecodeError => true
  | _ => false
  end.

(** ** Configuration *)

Record GodotConfig : Type := mkGodotConfig {
  ws_url : string;
  token : string;
  token_file : string
}.

Definition default_ws_url : string := "ws://127.0.0.1:49631".

(** A path on disk as [Path.exists] and [Path.read_text] see it. *)
Inductive fnode : Type :=
| Missing
| File (text : string)
| Unreadable.

(** ** The WebSocket transport *)

(** What the peer does on one connection, in order: it delivers a text
    frame, or the connection is lost ([recv] raises [ConnectionClosed]).
    When the script is used up the peer stays silent and [recv] blocks. *)
Inductive incoming : Type :=
| Text (frame : string)
| Lost.

Record socket : Type := mkSocket {
  pending : list incoming;
  alive : bool;
  released : bool
}.

(** The answer of the server to one connection attempt. *)
Inductive dial : Type :=
| Refused
| Accepted (script : list incoming).

(** The transport calls made by the client, oldest first. *)
Inductive event : Type :=
| EConnect (url : string)
| ESend (h : nat) (frame : string)
| ERecv (h : nat)
| EClose (h : nat).

(** The environment of a client: the connection objects created so far (a
    connection handle is an index into [sockets]), the answers of the server
    to the coming connection attempts, and the log of transport calls. *)
Record world : Type := mkWorld {
  sockets : list socket;
  server : list dial;
  trace : list event
}.

Definition log (e : event) (w : world) : world :=
  mkWorld (sockets w) (server w) (trace w ++ [e]).

Definition sent_frames (tr : list event) : list string :=
  omap (fun e => match e with ESend _ frame => Some frame | _ => None end) tr.

(** The number of [close] calls made on a connection. *)
Definition is_close (h : nat) (e : event) : bool :=
  match e with
  | EClose h' => bool_decide (h' = h)
  | _ => false
  end.

Definition closes (h : nat) (tr : list event) : nat :=
  List.length (List.filter (is_close h) tr).

(** [ws.send(frame)] *)
Definition ws_send (h : nat) (frame : string) (w : world) : outcome unit * world :=
  let w' := log (ESend h frame) w in
  match sockets w !! h with
  | Some sk => if alive sk then (Returns tt, w') else (Raises ConnectionClosed, w')
  | None => (Raises ConnectionClosed, w')
  end.

(** [ws.close()] *)
Definition ws_close (h : nat) (w : world) : world :=
  let closed := (fun sk => mkSocket (pending sk) false true) <$> sockets w !! h in
  mkWorld (from_option (fun sk => <[h:=sk]> (sockets w)) (sockets w) closed)
          (server w) (trace w ++ [EClose h]).

(** ** The client *)

Record GodotClient : Type := mkGodotClient {
  config : GodotConfig;
  ws : option nat;
  request_id : Z;
  authenticated : bool
}.

Definition set_ws (h : option nat) (self : GodotClient) : GodotClient :=
  mkGodotClient (config self) h (request_id self) (authenticated self).

Definition set_request_id (n : Z) (self : GodotClient) : GodotClient :=
  mkGodotClient (config self) (ws self) n (authenticated self).

Definition set_authenticated (b : bool) (self : GodotClient) : GodotClient :=
  mkGodotClient (config self) (ws self) (request_id self) b.

(** [v == s] for a string [s]: only an equal string compares equal. *)
Definition eq_str (v : pyval) (s : string) : bool :=
  match v with
  | PStr t => bool_decide (t = s)
  | _ => false
  end.

(** The request dictionary built in [call]. *)
Definition request_dict (id : Z) (method : string) (params : option pydict) : pydict :=
  let params_or_empty :=
    match params with
    | Some p => if truthy (PDict p) then p else ∅
    | None => ∅
    end in
  <["jsonrpc" := PStr "2.0"]>
    (<["id" := PStr (str id)]>
      (<["method" := PStr method]>
        (<["params" := PDict params_or_empty]> ∅))).

(** One turn of the [while True] loop of [call] after the frame has been
    decoded: [None] when the loop goes round again, otherwise how [call]
    ends. *)
Definition handle_response (id : string) (response : pyval) : option (outcome pyval) :=
  match response with
  | PDict r =>
      if eq_str (dict_get r "id" PNone) id then
        if dict_has r "error" then
          match dict_get r "error" PNone with
          | PDict error =>
              Some (Raises (RPCError (dict_get error "code" (PInt (-1)))
                                     (dict_get error "message" (PStr "Unknown error"))
                                     (dict_get error "data" PNone)))
          | _ => Some (Raises AttributeError)
          end
        else Some (Returns (dict_get r "result" (PDict ∅)))
      else None
  | _ => Some (Raises AttributeError)
  end.

(** The state a receive loop leaves a connection in: how it ended, what is
    still to come from the peer, whether the connection is still up, and the
    number of [recv] calls made. *)
Record received : Type := mkReceived {
  ended : outcome pyval;
  unread : list incoming;
  still_alive : bool;
  recvs : nat
}.

Definition one_more_recv (r : received) : received :=
  mkReceived (ended r) (unread r) (still_alive r) (S (recvs r)).

Section Client.

(** The library functions the module calls, taken as they are:
    [json.loads] ([None] when it raises [JSONDecodeError]), [json.dumps],
    [repr] on the values [str] is not spelled out for below, and the
    coercion pydantic applies to a value given for a [str] field that is
    not a string ([None] when validation fails). *)
Variable json_loads : string -> option pyval.
Variable json_dumps : pyval -> string.
Variable repr_other : pyval -> string.
Variable pydantic_str : pyval -> option string.

(** What an f-string field prints for a value. *)
Definition format_value (v : pyval) : string :=
  match v with
  | PStr s => s
  | PInt n => str n
  | PBool true => "True"
  | PBool false => "False"
  | PNone => "None"
  | _ => repr_other v
  end.

(** [GodotConfig(ws_url=..., token=..., token_file=...)]: the two string
    arguments are strings at every call site; the token may be any value
    found in a token file and is validated as a [str] field. *)
Definition GodotConfig_new (url : string) (tok : pyval) (file : string)
  : outcome GodotConfig :=
  match tok with
  | PStr s => Returns (mkGodotConfig url s file)
  | _ => match pydantic_str tok with
         | Some s => Returns (mkGodotConfig url s file)
         | None => Raises ValidationError
         end
  end.

(** [GodotClient._load_config], with [os.environ] and the file system as
    arguments. *)
Definition _load_config (environ : gmap string string) (fs : string -> fnode)
  : outcome GodotConfig :=
  let ws_url := default default_ws_url (environ !! "GODOT_WS_URL") in
  let token := default "" (environ !! "GODOT_TOKEN") in
  let token_file := default "" (environ !! "GODOT_TOKEN_FILE") in
  if String.eqb token "" && negb (String.eqb token_file "") then
    match fs token_file with
    | Missing => GodotConfig_new ws_url (PStr token) token_file
    | Unreadable => Raises OSError
    | File text =>
        let content := strip text in
        match json_loads content with
        | Some (PDict data) =>
            let token := dict_get data "token" (PStr content) in
            let ws_url :=
              match data !! "port" with
              | Some port => "ws://127.0.0.1:" ++ format_value port
              | None => ws_url
              end in
            GodotConfig_new ws_url token token_file
        | Some _ => Raises AttributeError
        | None => GodotConfig_new ws_url (PStr content) token_file
        end
    end
  else GodotConfig_new ws_url (PStr token) token_file.

(** [GodotClient.__init__] *)
Definition GodotClient_init (cfg : option GodotConfig)
  (environ : gmap string string) (fs : string -> fnode) : outcome GodotClient :=
  match cfg with
  | Some cfg => Returns (mkGodotClient cfg None 0 false)
  | None =>
      match _load_config environ fs with
      | Returns cfg => Returns (mkGodotClient cfg None 0 false)
      | Raises e => Raises e
      | Blocks => Blocks
      end
  end.

(** The [while True] loop of [call] on a live connection, by recursion on
    what the peer still has to say. *)
Fixpoint recv_loop (id : string) (script : list incoming) : received :=
  match script with
  | [] => mkReceived Blocks [] true 1
  | Lost :: rest => mkReceived (Raises ConnectionClosed) rest false 1
  | Text response_text :: rest =>
      match json_loads response_text with
      | None => mkReceived (Raises JSONDecodeError) rest true 1
      | Some response =>
          match handle_response id response with
          | Some out => mkReceived out rest true 1
          | None => one_more_recv (recv_loop id rest)
          end
      end
  end.

(** [GodotClient.call] *)
Definition call (method : string) (params : option pydict)
  (self : GodotClient) (w : world) : outcome pyval * GodotClient * world :=
  match ws self with
  | None => (Raises (RuntimeError "Not connected to Godot"), self, w)
  | Some h =>
      let self := set_request_id (request_id self + 1) self in
      let request := request_dict (request_id self) method params in
      match ws_send h (json_dumps (PDict request)) w with
      | (Returns _, w) =>
          match sockets w !! h with
          | Some sk =>
              let r := recv_loop (str (request_id self)) (pending sk) in
              (ended r, self,
               mkWorld (<[h := mkSocket (unread r) (still_alive r) (released sk)]> (sockets w))
                       (server w)
                       (trace w ++ replicate (recvs r) (ERecv h)))
          | None => (Raises ConnectionClosed, self, w)
          end
      | (Raises e, w) => (Raises e, self, w)
      | (Blocks, w) => (Blocks, self, w)
      end
  end.

(** The parameters of the [auth.hello] request. *)
Definition hello_params (self : GodotClient) : pydict :=
  <["token" := PStr (token (config self))]>
    (<["client" := PStr "godot-bridge-cli"]>
      (<["version" := PStr "1.0.0"]> ∅)).

(** [GodotClient.connect]: every exception raised inside the [try] block
    is caught and turned into [False]. *)
Definition connect (self : GodotClient) (w : world) : outcome bool * GodotClient * world :=
  let url := ws_url (config self) in
  match server w with
  | Accepted script :: later =>
      let h := List.length (sockets w) in
      let w := mkWorld (sockets w ++ [mkSocket script true false]) later
                       (trace w ++ [EConnect url]) in
      let self := set_ws (Some h) self in
      match call "auth.hello" (Some (hello_params self)) self w with
      | (Returns result, self, w) =>
          match result with
          | PDict result =>
              if truthy (dict_get result "ok" PNone)
              then (Returns true, set_authenticated true self, w)
              else (Returns false, self, w)
          | _ => (Returns false, self, w)
          end
      | (Raises _, self, w) => (Returns false, self, w)
      | (Blocks, self, w) => (Blocks, self, w)
      end
  | Refused :: later =>
      (Returns false, self, mkWorld (sockets w) later (trace w ++ [EConnect url]))
  | [] =>
      (Returns false, self, mkWorld (sockets w) [] (trace w ++ [EConnect url]))
  end.

(** [GodotClient.close] *)
Definition close (self : GodotClient) (w : world) : GodotClient * world :=
  match ws self with
  | Some h => (set_authenticated false (set_ws None self), ws_close h w)
  | None => (self, w)
  end.

(** [godot_call]: [with GodotClient() as client: return client.call(...)].
    [__enter__] connects and ignores the answer; [__exit__] closes on the
    way out, whether the body returned or raised. *)
Definition godot_call (method : string) (params : option pydict)
  (environ : gmap string string) (fs : string -> fnode) (w : world)
  : outcome pyval * world :=
  match GodotClient_init None environ fs with
  | Returns client =>
      match connect client w with
      | (Blocks, _, w) => (Blocks, w)
      | (_, client, w) =>
          match call method params client w with
          | (Blocks, _, w) => (Blocks, w)
          | (out, client, w) => (out, snd (close client w))
          end
      end
  | Raises e => (Raises e, w)
  | Blocks => (Blocks, w)
  end.

(** A run of calls made one after the other on the same client; a call
    that blocks is the last one. *)
Fixpoint run_calls (calls : list (string * option pydict))
  (self : GodotClient) (w : world) : list (outcome pyval) * GodotClient * world :=
  match calls with
  | [] => ([], self, w)
  | (method, params) :: calls' =>
      match call method params self w with
      | (Blocks, self, w) => ([Blocks], self, w)
      | (out, self, w) =>
          let '(outs, self, w) := run_calls calls' self w in
          (out :: outs, self, w)
      end
  end.

End Client.


(** ** The command line ([godot_bridge/main.py]) *)

(** What a command leaves on the terminal: [print(json.dumps(payload,
    indent=2))], [console.print_json(data=data)] and
    [console.print(text)]. *)
Inductive output : Type :=
| PrintJson (payload : pyval)
| ConsoleJson (data : pyval)
| ConsoleText (text : string).

(** The exceptions a command handles: those that come out of the client or
    of [json.loads], and the [ValueError] the commands build themselves. *)
Inductive cli_exn : Type :=
| Exn (e : exn)
| ValueError (msg : string).

(** How a command ends: it returns, it leaves through [typer.Exit(code)],
    or it never comes back. *)
Inductive ending : Type :=
| Finished
| Exit (code : Z)
| Hangs.

Record ran : Type := mkRan {
  printed : list output;
  ended_with : ending;
  world_after : world
}.

(** [output_result] *)
Definition output_result (data : pyval) (as_json : bool) : output :=
  if as_json
  then PrintJson (PDict (<["ok" := PBool true]> (<["data" := data]> ∅)))
  else ConsoleJson data.

Section Commands.

Variable json_loads : string -> option pyval.
Variable json_dumps : pyval -> string.
Variable repr_other : pyval -> string.
Variable pydantic_str : pyval -> option string.

(** [str(e)] for the exceptions whose text comes from a library. *)
Variable library_message : exn -> string.

(** [str(error)] *)
Definition str_exn (error : cli_exn) : string :=
  match error with
  | Exn (RPCError code message _) =>
      "RPC Error " ++ format_value repr_other code ++ ": "
                   ++ format_value repr_other message
  | Exn (RuntimeError msg) => msg
  | Exn e => library_message e
  | ValueError msg => msg
  end.

(** The [err_data] dictionary of [output_error]. *)
Definition err_data (error : cli_exn) : pydict :=
  match error with
  | Exn (RPCError code message data) =>
      let d := <["message" := message]>
                 (<["code" := code]> (<["type" := PStr "rpc_error"]> ∅)) in
      if truthy data then <["details" := data]> d else d
  | _ => <["message" := PStr (str_exn error)]> (<["type" := PStr "error"]> ∅)
  end.

(** [output_error]: what it prints; it always leaves through
    [typer.Exit(1)]. *)
Definition output_error (error : cli_exn) (as_json : bool) : output :=
  if as_json
  then PrintJson (PDict (<["ok" := PBool false]>
                           (<["error" := PDict (err_data error)]> ∅)))
  else ConsoleText ("[red]Error:[/red] " ++ str_exn error).

Definition fails (error : cli_exn) (as_json : bool) (w : world) : ran :=
  mkRan [output_error error as_json] (Exit 1) w.

(** The body shared by the commands that make one call:
    [try: result = godot_call(method, params); output_result(result, json_out)]
    [except Exception as e: output_error(e, json_out)]. *)
Definition command (method : string) (params : option pydict) (json_out : bool)
  (environ : gmap string string) (fs : string -> fnode) (w : world) : ran :=
  match godot_call json_loads json_dumps repr_other pydantic_str
          method params environ fs w with
  | (Returns result, w) => mkRan [output_result result json_out] Finished w
  | (Raises e, w) => fails (Exn e) json_out w
  | (Blocks, w) => mkRan [] Hangs w
  end.

(** The same body with [except json.JSONDecodeError as e:
    output_error(ValueError(f"Invalid JSON: {e}"), json_out)] ahead of
    [except Exception], as in [node_set] and [node_add]. *)
Definition command_json_guarded (method : string) (params : option pydict)
  (json_out : bool)
  (environ : gmap string string) (fs : string -> fnode) (w : world) : ran :=
  match godot_call json_loads json_dumps repr_other pydantic_str
          method params environ fs w with
  | (Returns result, w) => mkRan [output_result result json_out] Finished w
  | (Raises JSONDecodeError, w) =>
      fails (ValueError ("Invalid JSON: " ++ str_exn (Exn JSONDecodeError)))
            json_out w
  | (Raises e, w) => fails (Exn e) json_out w
  | (Blocks, w) => mkRan [] Hangs w
  end.

(** An optional string argument is used when it is there and not empty. *)
Definition given (arg : option string) : option string :=
  match arg with
  | Some s => if String.eqb s "" then None else Some s
  | None => None
  end.

(** [node_set]: the properties are decoded inside the [try]. *)
Definition node_set (path props : string) (json_out : bool)
  (environ : gmap string string) (fs : string -> fnode) (w : world) : ran :=
  match json_loads props with
  | Some properties =>
      command_json_guarded "scene.set_node_properties"
        (Some (<["node_path" := PStr path]> (<["properties" := properties]> ∅)))
        json_out environ fs w
  | None =>
      fails (ValueError ("Invalid JSON: " ++ str_exn (Exn JSONDecodeError)))
            json_out w
  end.

(** [node_add]: the properties are decoded [if props]. *)
Definition node_add (parent type name : string) (props : option string)
  (json_out : bool)
  (environ : gmap string string) (fs : string -> fnode) (w : world) : ran :=
  let params := <["parent_path" := PStr parent]>
                  (<["type" := PStr type]> (<["name" := PStr name]> ∅)) in
  match given props with
  | Some text =>
      match json_loads text with
      | Some properties =>
          command_json_guarded "scene.add_node"
            (Some (<["properties" := properties]> params)) json_out environ fs w
      | None =>
          fails (ValueError ("Invalid JSON: " ++ str_exn (Exn JSONDecodeError)))
                json_out w
      end
  | None => command_json_guarded "scene.add_node" (Some params) json_out environ fs w
  end.

(** [resource_material]: the properties are decoded inside the [try], and
    [except Exception] is the only handler. *)
Definition resource_material (node material_type : string) (props : option string)
  (json_out : bool)
  (environ : gmap string string) (fs : string -> fnode) (w : world) : ran :=
  let params := <["node_path" := PStr node]>
                  (<["material_type" := PStr material_type]> ∅) in
  match given props with
  | Some text =>
      match json_loads text with
      | Some properties =>
          command "resources.create_material"
            (Some (<["properties" := properties]> params)) json_out environ fs w
      | None => fails (Exn JSONDecodeError) json_out w
      end
  | None => command "resources.create_material" (Some params) json_out environ fs w
  end.

(** [status].  The inner [try ... except: pass] around the call for the
    project name swallows whatever that call or [info.get] raises. *)
Definition status (json_out : bool)
  (environ : gmap string string) (fs : string -> fnode) (w : world) : ran :=
  match GodotClient_init json_loads repr_other pydantic_str None environ fs with
  | Returns client =>
      match connect json_loads json_dumps client w with
      | (Returns true, client, w) =>
          let result :=
            <["connected" := PBool true]>
              (<["authenticated" := PBool (authenticated client)]>
                (<["ws_url" := PStr (ws_url (config client))]> ∅)) in
          match call json_loads json_dumps "project.get_info" None client w with
          | (Blocks, _, w) => mkRan [] Hangs w
          | (Returns (PDict info), client, w) =>
              let result :=
                <["project" := dict_get info "name" (PStr "unknown")]> result in
              mkRan [output_result (PDict result) json_out] Finished
                    (close client w).2
          | (_, client, w) =>
              mkRan [output_result (PDict result) json_out] Finished
                    (close client w).2
          end
      | (Returns false, _, w) =>
          mkRan [output_result (PDict (<["connected" := PBool false]> ∅)) json_out]
                Finished w
      | (Raises e, _, w) => fails (Exn e) json_out w
      | (Blocks, _, w) => mkRan [] Hangs w
      end
  | Raises e => fails (Exn e) json_out w
  | Blocks => mkRan [] Hangs w
  end.

End Commands.

(** What a script that runs a command with [--json] can rely on: nothing
    is printed when the command hangs; otherwise exactly one document is
    printed, with [ok] true and a [data] member when the command returns,
    with [ok] false and an [error] member when it leaves with status 1. *)
Definition json_contract (r : ran) : Prop :=
  (ended_with r = Hangs /\ printed r = [])
  \/ (exists payload,
        printed r = [PrintJson (PDict payload)]
        /\ ((ended_with r = Finished
             /\ payload !! "ok" = Some (PBool true)
             /\ is_Some (payload !! "data")
             /\ payload !! "error" = None)
            \/ (ended_with r = Exit 1
                /\ payload !! "ok" = Some (PBool false)
                /\ is_Some (payload !! "error")
                /\ payload !! "data" = None))).

(** ** The endpoint as the specification reads it *)

(** The host part of what follows [://]: up to the port or the path. *)
Fixpoint take_host (s : string) : string :=
  match s with
  | String c s' =>
      if (Ascii.eqb c ":" || Ascii.eqb c "/")%bool then EmptyString
      else String c (take_host s')
  | EmptyString => EmptyString
  end.

(** Scheme and host of a URL, as in [scheme://host]. *)
Fixpoint scheme_and_host (url : string) : string :=
  match url with
  | String ":" (String "/" (String "/" rest)) => "://" ++ take_host rest
  | String c url' => String c (scheme_and_host url')
  | EmptyString => EmptyString
  end.

(** The specification's port override: the port is replaced, host and
    scheme are those of the URL resolved before. *)
Definition with_port (url port : string) : string :=
  scheme_and_host url ++ ":" ++ port.

(** The endpoint resolved before the token file is looked at. *)
Definition resolved_url (environ : gmap string string) : string :=
  default default_ws_url (environ !! "GODOT_WS_URL").

(** The override as the specification words it, for one environment: when
    the token file holds a JSON object with a port, the loaded endpoint is
    the resolved one with its port replaced. *)
Definition port_override_preserves_endpoint
  (json_loads : string -> option pyval) (repr_other : pyval -> string)
  (pydantic_str : pyval -> option string)
  (environ : gmap string string) (fs : string -> fnode) : Prop :=
  forall text data port cfg,
    fs (default "" (environ !! "GODOT_TOKEN_FILE")) = File text ->
    json_loads (strip text) = Some (PDict data) ->
    data !! "port" = Some port ->
    _load_config json_loads repr_other pydantic_str environ fs = Returns cfg ->
    ws_url cfg = with_port (resolved_url environ) (format_value repr_other port).

(** ** Client states *)

(** The states a client can be in: the flag is only ever up while there is
    a connection handle ([connect] raises it after storing a handle,
    [close] drops both, nothing else writes either). *)
Definition consistent (self : GodotClient) : Prop :=
  authenticated self = true -> is_Some (ws self).

(** ** Identifiers as the specification reads them *)

(** The frames a run of calls hands to the transport when the counter
    stands at [counter] before the first: call number [k] carries the
    identifier [counter + k]. *)
Fixpoint expected_frames (json_dumps : pyval -> string) (counter : Z)
  (calls : list (string * option pydict)) : list string :=
  match calls with
  | [] => []
  | (method, params) :: calls' =>
      json_dumps (PDict (request_dict (counter + 1) method params))
        :: expected_frames json_dumps (counter + 1) calls'
  end.

(** ** The handshake as the specification reads it *)


(** What [connect] tests: [result.get("ok")] is truthy. *)
Definition ok_is_truthy (result : pyval) : bool :=
  match result with
  | PDict d => truthy (dict_get d "ok" PNone)
  | _ => false
  end.

(** A frame that decodes to an object carrying another identifier than the
    awaited one (or none). *)
Definition mismatched (json_loads : string -> option pyval) (id : string)
  (frame : incoming) : Prop :=
  exists t r, frame = Text t /\ json_loads t = Some (PDict r)
              /\ eq_str (dict_get r "id" PNone) id = false.


(** ** The result rule as the specification reads it *)

(** A response has an error object when its [error] member is an
    object. *)
Definition has_error_object (r : pydict) : Prop :=
  exists error, r !! "error" = Some (PDict error).

(** The rule as the specification words it, for one call: whenever the
    response with the call's identifier has no error object, the call
    returns its result, the empty dictionary when it has none. *)
Definition response_without_error_object_returns_result
  (json_loads : string -> option pyval) (json_dumps : pyval -> string)
  (method : string) (params : option pydict)
  (self : GodotClient) (w : world) : Prop :=
  forall h sk stale t r rest,
    ws self = Some h ->
    sockets w !! h = Some sk ->
    alive sk = true ->
    pending sk = (stale ++ Text t :: rest)%list ->
    Forall (mismatched json_loads (str (request_id self + 1))) stale ->
    json_loads t = Some (PDict r) ->
    eq_str (dict_get r "id" PNone) (str (request_id self + 1)) = true ->
    ~ has_error_object r ->
    (call json_loads json_dumps method params self w).1.1 =
    Returns (dict_get r "result" (PDict ∅)).

(** ** The token as the specification reads it *)

(** The precedence as the specification words it, for one environment:
    the token of the loaded configuration is the explicit token when that
    is not empty, or the [token] field of a token file that parses as
    JSON, or the trimmed content of a token file that does not parse as
    JSON, or the empty token. *)
Definition token_from_listed_sources
  (json_loads : string -> option pyval) (repr_other : pyval -> string)
  (pydantic_str : pyval -> option string)
  (environ : gmap string string) (fs : string -> fnode) : Prop :=
  forall cfg,
    _load_config json_loads repr_other pydantic_str environ fs = Returns cfg ->
    let explicit := default "" (environ !! "GODOT_TOKEN") in
    let file := fs (default "" (environ !! "GODOT_TOKEN_FILE")) in
    (explicit <> "" /\ token cfg = explicit)
    \/ (exists text data,
          file = File text
          /\ json_loads (strip text) = Some (PDict data)
          /\ data !! "token" = Some (PStr (token cfg)))
    \/ (exists text,
          file = File text
          /\ json_loads (strip text) = None
          /\ token cfg = strip text)
    \/ token cfg = "".

(** ** The numbering as the specification reads it *)

(** The frames sent on one connection, in order. *)
Definition frames_on (h : nat) (tr : list event) : list string :=
  omap (fun e => match e with
                 | ESend h' frame =>
                     if bool_decide (h' = h) then Some frame else None
                 | _ => None
                 end) tr.

(** The start of the numbering as the specification words it, for one
    client and one environment: on a connection the client opens, the
    first request, which is the handshake, carries the identifier ["1"]. *)
Definition numbering_starts_at_one_per_connection
  (json_loads : string -> option pyval) (json_dumps : pyval -> string)
  (self : GodotClient) (w : world) : Prop :=
  forall script later,
    server w = Accepted script :: later ->
    head (frames_on (List.length (sockets w))
            (trace (connect json_loads json_dumps self w).2)) =
    Some (json_dumps (PDict (request_dict 1 "auth.hello"
                               (Some (hello_params self))))).

(** ** Sample documents and environments *)

Definition dq : string := String (ascii_of_nat 34) EmptyString.
Definition quoted (s : string) : string := dq ++ s ++ dq.

(** A JSON member [key: value] with a quoted key. *)
Definition member (key value : string) : string := quoted key ++ ": " ++ value.

(** Answer to request 1: ok is true and the editor version is 4.3. *)
Definition doc_hello_ok : string :=
  "{" ++ member "id" (quoted "1") ++ ", "
      ++ member "result" ("{" ++ member "ok" "true" ++ ", "
                              ++ member "editor_version" (quoted "4.3") ++ "}") ++ "}".

(** Answer to request 1 whose ok is the string yes. *)
Definition doc_hello_yes : string :=
  "{" ++ member "id" (quoted "1") ++ ", "
      ++ member "result" ("{" ++ member "ok" (quoted "yes") ++ "}") ++ "}".

(** Answer to request 1 without a result member. *)
Definition doc_bare : string := "{" ++ member "id" (quoted "1") ++ "}".

(** Answer to request 2: error -32601, method not found. *)
Definition doc_error : string :=
  "{" ++ member "id" (quoted "2") ++ ", "
      ++ member "error" ("{" ++ member "code" "-32601" ++ ", "
                             ++ member "message" (quoted "Method not found") ++ "}") ++ "}".

(** Answer to request 1: error -32000 with a data member. *)
Definition doc_error_1 : string :=
  "{" ++ member "id" (quoted "1") ++ ", "
      ++ member "error" ("{" ++ member "code" "-32000" ++ ", "
                             ++ member "message" (quoted "Busy") ++ ", "
                             ++ member "data" "[1]" ++ "}") ++ "}".

(** A late answer to some request 7, and a notification without id. *)
Definition doc_stale : string :=
  "{" ++ member "id" (quoted "7") ++ ", " ++ member "result" "{}" ++ "}".
Definition doc_notify : string :=
  "{" ++ member "method" (quoted "editor.changed") ++ "}".

(** A token file in the JSON form, with token secret and port 5000. *)
Definition doc_token_file : string :=
  "{" ++ member "token" (quoted "secret") ++ ", " ++ member "port" "5000" ++ "}".

(** The objects the sample documents decode to. *)
Definition obj_hello_ok : pydict :=
  {[ "id" := PStr "1";
     "result" := PDict {[ "ok" := PBool true; "editor_version" := PStr "4.3" ]} ]}.
Definition obj_hello_yes : pydict :=
  {[ "id" := PStr "1"; "result" := PDict {[ "ok" := PStr "yes" ]} ]}.
Definition obj_bare : pydict := {[ "id" := PStr "1" ]}.
Definition obj_method_not_found : pydict :=
  {[ "code" := PInt (-32601); "message" := PStr "Method not found" ]}.
Definition obj_error : pydict :=
  {[ "id" := PStr "2"; "error" := PDict obj_method_not_found ]}.
Definition obj_busy : pydict :=
  {[ "code" := PInt (-32000); "message" := PStr "Busy"; "data" := PList [PInt 1] ]}.
Definition obj_error_1 : pydict :=
  {[ "id" := PStr "1"; "error" := PDict obj_busy ]}.
Definition obj_stale : pydict := {[ "id" := PStr "7"; "result" := PDict ∅ ]}.
Definition obj_notify : pydict := {[ "method" := PStr "editor.changed" ]}.
Definition obj_token_file : pydict :=
  {[ "token" := PStr "secret"; "port" := PInt 5000 ]}.

Definition sample_documents : list (string * pyval) :=
  [ (doc_hello_ok, PDict obj_hello_ok);
    (doc_hello_yes, PDict obj_hello_yes);
    (doc_bare, PDict obj_bare);
    (doc_error, PDict obj_error);
    (doc_error_1, PDict obj_error_1);
    (doc_stale, PDict obj_stale);
    (doc_notify, PDict obj_notify);
    (doc_token_file, PDict obj_token_file);
    ("42", PInt 42);
    ("[1, 2]", PList [PInt 1; PInt 2]) ].

(** [json.loads] on the sample documents; any other text, such as a bare
    word, is taken as not decodable. *)
Definition sample_loads (s : string) : option pyval :=
  (list_to_map sample_documents : gmap string pyval) !! s.

(** A serialiser for the sample requests: compact members in key order, no
    escapes, floats not printed. *)
Fixpoint sample_dumps_upto (depth : nat) (v : pyval) : string :=
  match depth with
  | O => "null"
  | S depth =>
      match v with
      | PNone => "null"
      | PBool true => "true"
      | PBool false => "false"
      | PInt n => str n
      | PFloat _ => "0.0"
      | PStr s => quoted s
      | PList l =>
          "[" ++ String.concat ", " (sample_dumps_upto depth <$> l) ++ "]"
      | PDict d =>
          "{" ++ String.concat ", "
                   ((fun kv => member kv.1 (sample_dumps_upto depth kv.2))
                      <$> map_to_list d) ++ "}"
      end
  end.

Definition sample_dumps (v : pyval) : string := sample_dumps_upto 8 v.

(** No coercion of other values to strings, and a placeholder for [repr]. *)
Definition sample_pydantic (v : pyval) : option string := None.
Definition sample_repr (v : pyval) : string := "?".

Definition sample_message (e : exn) : string := "Expecting value".

Definition sample_config : GodotConfig := mkGodotConfig default_ws_url "abc" "".

(** A client as [__init__] leaves it, and the same client once connected on
    handle 0. *)
Definition fresh_client : GodotClient := mkGodotClient sample_config None 0 false.
Definition open_client : GodotClient := mkGodotClient sample_config (Some 0%nat) 0 false.

(** A world with one live connection on which the peer has [script] to
    say. *)
Definition world_with (script : list incoming) : world :=
  mkWorld [mkSocket script true false] [] [].

(** A world in which the server accepts one connection and then says
    [script]. *)
Definition world_accepting (script : list incoming) : world :=
  mkWorld [] [Accepted script] [].

(** What the peer says in the samples: two frames that belong to no
    pending call, then the answer. *)
Definition stale_frames : list incoming := [Text doc_stale; Text doc_notify].

Definition sample_token_path : string := "/tmp/godot.token".

Definition sample_fs (text : string) (path : string) : fnode :=
  if bool_decide (path = sample_token_path) then File text else Missing.

(** An environment that names a remote secure endpoint and the token
    file. *)
Definition remote_environ : gmap string string :=
  {[ "GODOT_WS_URL" := "wss://godot.example:9000";
     "GODOT_TOKEN_FILE" := sample_token_path ]}.

Definition file_environ : gmap string string :=
  {[ "GODOT_TOKEN_FILE" := sample_token_path ]}.

Definition explicit_environ : gmap string string :=
  {[ "GODOT_TOKEN" := "abc"; "GODOT_TOKEN_FILE" := sample_token_path ]}.

(** Further documents: a handshake answer whose ok is false, the answer
    to request 2 with the project information, and properties for a
    node. *)
Definition doc_hello_no : string :=
  "{" ++ member "id" (quoted "1") ++ ", "
      ++ member "result" ("{" ++ member "ok" "false" ++ "}") ++ "}".
Definition doc_info : string :=
  "{" ++ member "id" (quoted "2") ++ ", "
      ++ member "result" ("{" ++ member "name" (quoted "Demo") ++ "}") ++ "}".
Definition doc_props : string := "{" ++ member "visible" "true" ++ "}".

Definition obj_hello_no : pydict :=
  {[ "id" := PStr "1"; "result" := PDict {[ "ok" := PBool false ]} ]}.
Definition obj_info : pydict :=
  {[ "id" := PStr "2"; "result" := PDict {[ "name" := PStr "Demo" ]} ]}.
Definition obj_props : pydict := {[ "visible" := PBool true ]}.

Definition more_documents : list (string * pyval) :=
  [ (doc_hello_no, PDict obj_hello_no);
    (doc_info, PDict obj_info);
    (doc_props, PDict obj_props) ].

(** [json.loads] on all the sample documents. *)
Definition cli_loads (s : string) : option pyval :=
  match sample_loads s with
  | Some v => Some v
  | None => (list_to_map more_documents : gmap string pyval) !! s
  end.

(** Text that is not JSON. *)
Definition garbage : string := "<html>".

(** A file system with nothing on it, and the configuration that the
    empty environment gives. *)
Definition no_files (path : string) : fnode := Missing.
Definition default_config : GodotConfig := mkGodotConfig default_ws_url "" "".

(** Answer to request 1 with a result and an [error] member that is
    [null], and the answer to a handshake that is a client's second
    request. *)
Definition doc_null_error : string :=
  "{" ++ member "id" (quoted "1") ++ ", " ++ member "error" "null" ++ ", "
      ++ member "result" ("{" ++ member "ok" "true" ++ "}") ++ "}".
Definition doc_hello_ok_2 : string :=
  "{" ++ member "id" (quoted "2") ++ ", "
      ++ member "result" ("{" ++ member "ok" "true" ++ "}") ++ "}".

Definition obj_null_error : pydict :=
  {[ "id" := PStr "1"; "error" := PNone;
     "result" := PDict {[ "ok" := PBool true ]} ]}.
Definition obj_hello_ok_2 : pydict :=
  {[ "id" := PStr "2"; "result" := PDict {[ "ok" := PBool true ]} ]}.

Definition edge_documents : list (string * pyval) :=
  [ (doc_null_error, PDict obj_null_error);
    (doc_hello_ok_2, PDict obj_hello_ok_2) ].

(** [json.loads] on these documents as well. *)
Definition edge_loads (s : string) : option pyval :=
  match cli_loads s with
  | Some v => Some v
  | None => (list_to_map edge_documents : gmap string pyval) !! s
  end.

(** A server that accepts two connections and answers the handshake on
    each, and a client that has connected to it once and closed, with the
    world as it is then. *)
Definition two_dials : world :=
  mkWorld [] [Accepted [Text doc_hello_ok]; Accepted [Text doc_hello_ok_2]] [].
Definition reconnecting : GodotClient * world :=
  let '(_, client, w) := connect edge_loads sample_dumps fresh_client two_dials in
  close client w.

(** * Properties *)

Ltac unfold_call := unfold call, ws_send, log.
Ltac unfold_connect := unfold connect.
Ltac unfold_load_config := unfold _load_config.
Ltac unfold_init := unfold GodotClient_init.

Section Properties.

Local Open Scope list_scope.

Variable json_loads : string -> option pyval.
Variable json_dumps : pyval -> string.
Variable repr_other : pyval -> string.
Variable pydantic_str : pyval -> option string.

Local Abbreviation recv_loop := (recv_loop json_loads).
Local Abbreviation call := (call json_loads json_dumps).
Local Abbreviation connect := (connect json_loads json_dumps).
Local Abbreviation run_calls := (run_calls json_loads json_dumps).
Local Abbreviation _load_config := (_load_config json_loads repr_other pydantic_str).
Local Abbreviation GodotClient_init := (GodotClient_init json_loads repr_other pydantic_str).
Local Abbreviation format_value := (format_value repr_other).
Local Abbreviation mismatched := (mismatched json_loads).
Local Abbreviation expected_frames := (expected_frames json_dumps).

(** The frame a call with identifier [id] hands to the transport. *)
Local Abbreviation frame_of id method params :=
  (json_dumps (PDict (request_dict id method params))).

(** ** Identifiers *)

Lemma int_of_str_str (n : Z) : int_of_str (str n) = Some n.
Proof.
  unfold int_of_str, str.
  rewrite NilZero.isi.
  - simpl. by rewrite DecimalZ.of_to.
  - destruct n; simpl; try discriminate.
    intros [= H]. by apply Unsigned.to_uint_nonnil in H.
  - destruct n; simpl; try discriminate.
    intros [= H]. by apply Unsigned.to_uint_nonnil in H.
Qed.

Lemma str_inj (a b : Z) : str a = str b -> a = b.
Proof.
  intros H. apply (f_equal int_of_str) in H.
  rewrite !int_of_str_str in H. congruence.
Qed.

Lemma request_dict_id (id : Z) method params :
  request_dict id method params !! "id" = Some (PStr (str id)).
Proof. unfold request_dict. by simplify_map_eq. Qed.

Lemma request_dict_method (id : Z) method params :
  request_dict id method params !! "method" = Some (PStr method).
Proof. unfold request_dict. by simplify_map_eq. Qed.

(** ** The receive loop *)

Lemma handle_response_mismatched id r :
  eq_str (dict_get r "id" PNone) id = false ->
  handle_response id (PDict r) = None.
Proof. intros H. unfold handle_response. by rewrite H. Qed.

Lemma handle_response_matched id r :
  eq_str (dict_get r "id" PNone) id = true ->
  exists out, handle_response id (PDict r) = Some out.
Proof.
  intros H. unfold handle_response. rewrite H.
  destruct (dict_has r "error"); [|eauto].
  destruct (dict_get r "error" PNone); eauto.
Qed.

(** Frames for other identifiers cost one [recv] each and change nothing
    else. *)
Lemma recv_loop_skip id stale script :
  Forall (mismatched id) stale ->
  recv_loop id (stale ++ script) =
  let r := recv_loop id script in
  mkReceived (ended r) (unread r) (still_alive r) (List.length stale + recvs r).
Proof.
  induction 1 as [|frame stale (t & r & -> & Ht & Hid) _ IH]; simpl.
  - by destruct (recv_loop id script).
  - rewrite Ht, (handle_response_mismatched _ _ Hid), IH. reflexivity.
Qed.

Lemma recv_loop_matched id stale t r rest out :
  Forall (mismatched id) stale ->
  json_loads t = Some (PDict r) ->
  handle_response id (PDict r) = Some out ->
  recv_loop id (stale ++ Text t :: rest) =
  mkReceived out rest true (S (List.length stale)).
Proof.
  intros Hstale Ht Hout. rewrite recv_loop_skip by done.
  simpl. rewrite Ht, Hout. simpl. f_equal. lia.
Qed.

Lemma recv_loop_starved id stale :
  Forall (mismatched id) stale ->
  recv_loop id stale = mkReceived Blocks [] true (S (List.length stale)).
Proof.
  intros Hstale. rewrite <- (app_nil_r stale) at 1.
  rewrite recv_loop_skip by done. simpl. f_equal. lia.
Qed.

(** What ends the loop other than the awaited response: text that does
    not decode, a JSON value that is not an object, an [error] member that
    is not an object, and the loss of the connection. *)
Lemma recv_loop_broken id stale script :
  Forall (mismatched id) stale ->
  (forall t rest,
     script = Text t :: rest -> json_loads t = None ->
     ended (recv_loop id (stale ++ script)) = Raises JSONDecodeError)
  /\ (forall t v rest,
        script = Text t :: rest -> json_loads t = Some v ->
        (forall r, v <> PDict r) ->
        ended (recv_loop id (stale ++ script)) = Raises AttributeError)
  /\ (forall t r v rest,
        script = Text t :: rest -> json_loads t = Some (PDict r) ->
        eq_str (dict_get r "id" PNone) id = true ->
        r !! "error" = Some v -> (forall error, v <> PDict error) ->
        ended (recv_loop id (stale ++ script)) = Raises AttributeError)
  /\ (forall rest,
        script = Lost :: rest ->
        ended (recv_loop id (stale ++ script)) = Raises ConnectionClosed).
Proof.
  intros Hstale. rewrite recv_loop_skip by done. simpl. split_and!.
  - intros t rest -> Ht. simpl. by rewrite Ht.
  - intros t v rest -> Ht Hv. simpl. rewrite Ht.
    destruct v; try done. by destruct (Hv d).
  - intros t r v rest -> Ht Hid Herr Hv. simpl. rewrite Ht. simpl.
    rewrite Hid. unfold dict_has.
    rewrite bool_decide_eq_true_2 by (rewrite Herr; eauto).
    unfold dict_get at 1. rewrite Herr. simpl.
    destruct v; try done. by destruct (Hv d).
  - by intros rest ->.
Qed.

(** ** One call *)

Lemma call_disconnected method params self w :
  ws self = None ->
  call method params self w =
  (Raises (RuntimeError "Not connected to Godot"), self, w).
Proof. intros H. unfold_call. by rewrite H. Qed.

(** On a live connection a call bumps the counter, hands one frame to the
    transport and then runs the receive loop on what the peer says. *)
Lemma call_connected method params self w h sk :
  ws self = Some h ->
  sockets w !! h = Some sk ->
  alive sk = true ->
  call method params self w =
  let id := request_id self + 1 in
  let r := recv_loop (str id) (pending sk) in
  (ended r, set_request_id id self,
   mkWorld (<[h := mkSocket (unread r) (still_alive r) (released sk)]> (sockets w))
           (server w)
           ((trace w ++ [ESend h (frame_of id method params)])
              ++ replicate (recvs r) (ERecv h))).
Proof.
  intros Hws Hsk Halive. unfold_call. rewrite Hws. simpl.
  rewrite Hsk, Halive. simpl. by rewrite Hsk.
Qed.

(** Whatever happens, a call on a connected client bumps the counter by
    one, keeps the handle and the flag, and hands exactly one frame to the
    transport: the request carrying the new counter value. *)
Lemma call_step method params self w h :
  ws self = Some h ->
  let '(out, self', w') := call method params self w in
  self' = set_request_id (request_id self + 1) self /\
  sent_frames (trace w') =
  sent_frames (trace w) ++ [frame_of (request_id self + 1) method params].
Proof.
  intros Hws. unfold_call. rewrite Hws. simpl.
  assert (Hsent : forall tr n,
    sent_frames (tr ++ replicate n (ERecv h)) = sent_frames tr).
  { intros tr n. unfold sent_frames. rewrite omap_app.
    replace (omap _ (replicate n (ERecv h))) with (@nil string);
      [by rewrite app_nil_r|].
    induction n; simpl; done. }
  assert (Hone : forall tr f,
    sent_frames (tr ++ [ESend h f]) = sent_frames tr ++ [f]).
  { intros tr f. unfold sent_frames. by rewrite omap_app. }
  destruct (sockets w !! h) as [sk|] eqn:Hsk; simpl.
  - destruct (alive sk); simpl.
    + rewrite Hsk. simpl. split; [done|]. by rewrite Hsent, Hone.
    + split; [done|]. by rewrite Hone.
  - split; [done|]. by rewrite Hone.
Qed.

(** The matched response alone decides how the call ends. *)
Lemma call_matched method params self w h sk stale t r rest out :
  ws self = Some h ->
  sockets w !! h = Some sk ->
  alive sk = true ->
  pending sk = stale ++ Text t :: rest ->
  Forall (mismatched (str (request_id self + 1))) stale ->
  json_loads t = Some (PDict r) ->
  handle_response (str (request_id self + 1)) (PDict r) = Some out ->
  call method params self w =
  (out, set_request_id (request_id self + 1) self,
   mkWorld (<[h := mkSocket rest true (released sk)]> (sockets w))
           (server w)
           ((trace w ++ [ESend h (frame_of (request_id self + 1) method params)])
              ++ replicate (S (List.length stale)) (ERecv h))).
Proof.
  intros Hws Hsk Halive Hpending Hstale Ht Hout.
  rewrite (call_connected _ _ _ _ _ _ Hws Hsk Halive). simpl.
  rewrite Hpending, (recv_loop_matched _ _ _ _ _ _ Hstale Ht Hout).
  reflexivity.
Qed.

(** ** Calls before connecting *)

(** C8. A call on a client whose connection handle is unset raises the
    local usage error [RuntimeError "Not connected to Godot"] and touches
    nothing: the counter, the flag and the whole environment, the log of
    transport calls included, are as before, so no [send] and no [recv] is
    made.  A client is in that state from [__init__] on. *)
Theorem call_before_connect_raises method params self w :
  ws self = None ->
  call method params self w =
    (Raises (RuntimeError "Not connected to Godot"), self, w)
  /\ trace (call method params self w).2 = trace w
  /\ (forall cfg environ fs c,
        GodotClient_init cfg environ fs = Returns c -> ws c = None).
Proof.
  intros Hws. rewrite (call_disconnected _ _ _ _ Hws).
  split; [done|]. split; [done|].
  intros cfg environ fs c. unfold_init.
  destruct cfg; [by intros [= <-]|].
  destruct (_load_config environ fs); by intros [= <-].
Qed.

(** ** The correlator *)

(** C2. In the receive loop of a call, frames that decode to a response
    carrying another identifier than the call's own (the new counter value
    as a string) are dropped one by one: each costs one more [recv] and
    nothing else.  When a response with the call's identifier follows, that
    response alone decides how the call ends, the dropped frames are gone
    from the connection and the client is as after any call; when none
    follows, the call goes on waiting. *)
Theorem call_discards_mismatched method params self w h sk stale :
  ws self = Some h ->
  sockets w !! h = Some sk ->
  alive sk = true ->
  Forall (mismatched (str (request_id self + 1))) stale ->
  (forall t r rest,
     pending sk = stale ++ Text t :: rest ->
     json_loads t = Some (PDict r) ->
     eq_str (dict_get r "id" PNone) (str (request_id self + 1)) = true ->
     exists out,
       handle_response (str (request_id self + 1)) (PDict r) = Some out /\
       call method params self w =
       (out, set_request_id (request_id self + 1) self,
        mkWorld (<[h := mkSocket rest true (released sk)]> (sockets w))
                (server w)
                ((trace w ++ [ESend h (frame_of (request_id self + 1) method params)])
                   ++ replicate (S (List.length stale)) (ERecv h))))
  /\ (pending sk = stale -> (call method params self w).1.1 = Blocks).
Proof.
  intros Hws Hsk Halive Hstale. split.
  - intros t r rest Hpending Ht Hid.
    destruct (handle_response_matched _ _ Hid) as [out Hout].
    exists out. split; [done|].
    by apply (call_matched _ _ _ _ _ sk stale t r).
  - intros Hpending.
    rewrite (call_connected _ _ _ _ _ _ Hws Hsk Halive). simpl.
    by rewrite Hpending, recv_loop_starved.
Qed.

(** C3. When the response with the call's identifier has an [error] member
    that is an object, the call raises [RPCError] built from that object:
    its [code], [message] and [data] members as they are ([-1],
    ["Unknown error"] and [None] standing in for a member that is not
    there).  This is another exception than those of the transport or of
    the decoder. *)
Theorem call_error_raises_rpc_error method params self w h sk stale t r rest error :
  ws self = Some h ->
  sockets w !! h = Some sk ->
  alive sk = true ->
  pending sk = stale ++ Text t :: rest ->
  Forall (mismatched (str (request_id self + 1))) stale ->
  json_loads t = Some (PDict r) ->
  eq_str (dict_get r "id" PNone) (str (request_id self + 1)) = true ->
  r !! "error" = Some (PDict error) ->
  let out := (call method params self w).1.1 in
  out = Raises (RPCError (dict_get error "code" (PInt (-1)))
                         (dict_get error "message" (PStr "Unknown error"))
                         (dict_get error "data" PNone))
  /\ (forall code message,
        error !! "code" = Some code ->
        error !! "message" = Some message ->
        out = Raises (RPCError code message (default PNone (error !! "data"))))
  /\ is_rpc_error out = true
  /\ is_transport_or_decode_failure out = false.
Proof.
  intros Hws Hsk Halive Hpending Hstale Ht Hid Herr out.
  assert (Hout : out = Raises (RPCError (dict_get error "code" (PInt (-1)))
                         (dict_get error "message" (PStr "Unknown error"))
                         (dict_get error "data" PNone))).
  { subst out.
    erewrite call_matched; [reflexivity|done..|].
    unfold handle_response. rewrite Hid.
    unfold dict_has. rewrite bool_decide_eq_true_2 by (rewrite Herr; eauto).
    unfold dict_get at 1. by rewrite Herr. }
  split; [done|]. split; [|by rewrite Hout].
  intros code message Hcode Hmsg. rewrite Hout.
  unfold dict_get. by rewrite Hcode, Hmsg.
Qed.

(** C7. When the response with the call's identifier has no [error]
    member, the call returns its [result] member, and the empty dictionary
    when there is no [result] member.  It is the member that decides, not
    what it holds: the call returns only when there is no [error] member,
    and a response whose [error] member is [null] or anything else that is
    not an object makes the call raise [AttributeError], whatever result
    the response carries. *)
Theorem call_returns_result method params self w h sk stale t r rest :
  ws self = Some h ->
  sockets w !! h = Some sk ->
  alive sk = true ->
  pending sk = stale ++ Text t :: rest ->
  Forall (mismatched (str (request_id self + 1))) stale ->
  json_loads t = Some (PDict r) ->
  eq_str (dict_get r "id" PNone) (str (request_id self + 1)) = true ->
  let out := (call method params self w).1.1 in
  (r !! "error" = None ->
   (forall v, r !! "result" = Some v -> out = Returns v)
   /\ (r !! "result" = None -> out = Returns (PDict ∅)))
  /\ (forall v, r !! "error" = Some v -> (forall error, v <> PDict error) ->
                out = Raises AttributeError)
  /\ ((exists v, out = Returns v) <-> r !! "error" = None).
Proof.
  intros Hws Hsk Halive Hpending Hstale Ht Hid out.
  destruct (handle_response_matched _ _ Hid) as [ended Hended].
  assert (Hout : out = ended).
  { subst out.
    by rewrite (call_matched _ _ _ _ _ _ _ _ _ _ _ Hws Hsk Halive Hpending
                  Hstale Ht Hended). }
  rewrite Hout. clear Hout out.
  revert Hended. unfold handle_response. rewrite Hid.
  unfold dict_has, dict_get.
  destruct (r !! "error") as [e|] eqn:Herr.
  - rewrite bool_decide_eq_true_2 by eauto. simpl.
    intros Hended. split_and!.
    + done.
    + intros v [= <-] Hv. destruct e; try by injection Hended as <-.
      by destruct (Hv d).
    + split; [|done]. intros [v ->]. by destruct e.
  - rewrite bool_decide_eq_false_2 by (by intros [? ?]). simpl.
    intros [= <-]. split_and!.
    + intros _. split; [intros v Hv|intros Hv]; by rewrite Hv.
    + done.
    + split; [done|eauto].
Qed.

(** ** Runs of calls *)

Lemma expected_frames_lookup counter calls k method params :
  calls !! k = Some (method, params) ->
  expected_frames counter calls !! k =
  Some (frame_of (counter + Z.of_nat (S k)) method params).
Proof.
  revert counter k.
  induction calls as [|[m p] calls IH]; intros counter [|k] Hk; try done.
  - injection Hk as -> ->. simpl. do 3 f_equal. 
  - simpl in *. rewrite (IH _ _ Hk). do 4 f_equal. lia.
Qed.

Lemma run_calls_frames calls self w h :
  ws self = Some h ->
  let '(outs, self', w') := run_calls calls self w in
  let n := List.length outs in
  (n <= List.length calls)%nat
  /\ (n = List.length calls \/ last outs = Some Blocks)
  /\ ws self' = Some h
  /\ request_id self' = request_id self + Z.of_nat n
  /\ sent_frames (trace w') =
     sent_frames (trace w) ++ expected_frames (request_id self) (take n calls).
Proof.
  revert self w.
  induction calls as [|[m p] calls IH]; intros self w Hws; simpl.
  { split_and!; [lia|by left|done|lia|by rewrite app_nil_r]. }
  pose proof (call_step m p self w h Hws) as Hstep.
  destruct (call m p self w) as [[out self1] w1].
  destruct Hstep as [-> Hsent].
  destruct out as [v|e|].
  3: { simpl. split_and!; [lia|by right|done|lia|by rewrite Hsent]. }
  all: specialize (IH (set_request_id (request_id self + 1) self) w1 Hws);
    destruct (run_calls calls _ w1) as [[outs self2] w2];
    destruct IH as (Hle & Hlast & Hws2 & Hid & Hframes); simpl in *;
    (split_and!;
     [ lia
     | destruct Hlast as [->|Hlast]; [by left|right];
       destruct outs; [done|exact Hlast]
     | done
     | lia
     | rewrite Hframes, Hsent, <- app_assoc; reflexivity ]).
Qed.

(** ** Closing *)

(** C9. [close] leaves the client without a handle and with the flag
    down, whatever happened before; when there was a handle, the
    connection behind it has been closed, by exactly one [close] call on
    the transport, and every other connection is as before.  Closing a
    client that has no handle changes nothing and makes no transport call,
    so closing twice is closing once. *)
Theorem close_idempotent self w :
  consistent self ->
  let '(self1, w1) := close self w in
  ws self1 = None
  /\ authenticated self1 = false
  /\ config self1 = config self
  /\ request_id self1 = request_id self
  /\ close self1 w1 = (self1, w1)
  /\ (ws self = None -> self1 = self /\ w1 = w)
  /\ (forall h,
        ws self = Some h ->
        trace w1 = trace w ++ [EClose h]
        /\ server w1 = server w
        /\ (forall sk, sockets w !! h = Some sk ->
                       sockets w1 !! h = Some (mkSocket (pending sk) false true))
        /\ (forall h', h' <> h -> sockets w1 !! h' = sockets w !! h')).
Proof.
  intros Hok. unfold close. destruct (ws self) as [h|] eqn:Hws; simpl.
  - split_and!; try done.
    intros h' [= <-]. unfold ws_close. simpl. split_and!; try done.
    + intros sk Hsk. rewrite Hsk. simpl.
      apply list_lookup_insert_eq. by eapply lookup_lt_Some.
    + intros h' Hne. destruct (sockets w !! h) as [sk|]; simpl; [|done].
      by apply list_lookup_insert_ne.
  - rewrite Hws. split_and!; try done.
    unfold consistent in Hok. rewrite Hws in Hok.
    destruct (authenticated self); [|done].
    by destruct (Hok eq_refl).
Qed.

(** The operations keep the client in a state where the flag implies a
    handle. *)
Lemma init_consistent cfg environ fs c :
  GodotClient_init cfg environ fs = Returns c -> consistent c.
Proof.
  unfold_init. destruct cfg; [by intros [= <-]|].
  destruct (_load_config environ fs); by intros [= <-].
Qed.

Lemma call_consistent method params self w :
  consistent self -> consistent (call method params self w).1.2.
Proof.
  intros Hok. destruct (ws self) as [h|] eqn:Hws.
  - pose proof (call_step method params self w h Hws) as Hstep.
    destruct (call method params self w) as [[out self'] w'].
    destruct Hstep as [-> _]. exact Hok.
  - rewrite call_disconnected by done. exact Hok.
Qed.

Lemma close_consistent self w :
  consistent self -> consistent (close self w).1.
Proof.
  intros Hok. unfold close. destruct (ws self); [|exact Hok].
  unfold consistent. simpl. done.
Qed.

(** ** The handshake *)

(** A call changes neither the handle nor the flag. *)
Lemma call_keeps_flag method params self w :
  ws (call method params self w).1.2 = ws self
  /\ authenticated (call method params self w).1.2 = authenticated self.
Proof.
  destruct (ws self) as [h|] eqn:Hws.
  - pose proof (call_step method params self w h Hws) as Hstep.
    destruct (call method params self w) as [[out self'] w'].
    by destruct Hstep as [-> _].
  - by rewrite call_disconnected.
Qed.

(** [connect] never raises; it answers [True] exactly when it raises the
    flag, and it keeps the client in a state where the flag implies a
    handle. *)
Lemma connect_outcome self w :
  let '(out, self', w') := connect self w in
  (forall e, out <> Raises e)
  /\ (out = Returns true -> authenticated self' = true)
  /\ (authenticated self = false ->
      authenticated self' = true -> out = Returns true)
  /\ (consistent self -> consistent self').
Proof.
  unfold_connect.
  destruct (server w) as [|[|script] later]; simpl.
  1,2: split_and!; try done; intros H1 H2; congruence.
  set (self0 := set_ws _ self). set (w0 := mkWorld _ _ _).
  pose proof (call_keeps_flag "auth.hello" (Some (hello_params self0)) self0 w0)
    as [Hws Hflag].
  destruct (call "auth.hello" (Some (hello_params self0)) self0 w0)
    as [[out self1] w1].
  simpl in Hws, Hflag. unfold consistent.
  destruct out as [result|e|]; simpl.
  all: repeat match goal with
       | |- context [match ?v with PNone => _ | _ => _ end] => destruct v
       | |- context [if ?b then _ else _] => destruct b
       end; simpl.
  all: split_and!; try done; intros; try congruence; rewrite Hws; eauto.
Qed.

Lemma connect_consistent self w :
  consistent self -> consistent (connect self w).1.2.
Proof.
  pose proof (connect_outcome self w) as H.
  destruct (connect self w) as [[out self'] w']. simpl. apply H.
Qed.

Lemma handle_response_result id r :
  eq_str (dict_get r "id" PNone) id = true ->
  r !! "error" = None ->
  handle_response id (PDict r) = Some (Returns (dict_get r "result" (PDict ∅))).
Proof.
  intros Hid Herr. unfold handle_response. rewrite Hid.
  unfold dict_has. rewrite Herr.
  rewrite bool_decide_eq_false_2; [done|]. by intros [? ?].
Qed.



(** ** Loading the configuration *)

Lemma string_length_app (a b : string) :
  String.length (a ++ b)%string = (String.length a + String.length b)%nat.
Proof. induction a as [|x a IH]; simpl; [done|by rewrite IH]. Qed.

Lemma string_app_cancel_r (a b c : string) :
  (a ++ c = b ++ c)%string -> a = b.
Proof.
  intros Heq.
  assert (Hlen : String.length a = String.length b).
  { apply (f_equal String.length) in Heq.
    rewrite !string_length_app in Heq. lia. }
  revert b Heq Hlen.
  induction a as [|x a IH]; intros [|y b] Heq Hlen; simpl in *; try done.
  injection Heq as -> Heq. f_equal. by apply IH; [|lia].
Qed.


(** The branch of [_load_config] that reads the token file. *)
Lemma load_config_reads_file environ fs path text :
  default EmptyString (environ !! "GODOT_TOKEN") = EmptyString ->
  environ !! "GODOT_TOKEN_FILE" = Some path ->
  path <> EmptyString ->
  fs path = File text ->
  _load_config environ fs =
  match json_loads (strip text) with
  | Some (PDict data) =>
      GodotConfig_new pydantic_str
        match data !! "port" with
        | Some port => ("ws://127.0.0.1:" ++ format_value port)%string
        | None => resolved_url environ
        end
        (dict_get data "token" (PStr (strip text))) path
  | Some _ => Raises AttributeError
  | None => GodotConfig_new pydantic_str (resolved_url environ) (PStr (strip text)) path
  end.
Proof.
  intros Htok Hfile Hpath Hfs. unfold_load_config.
  rewrite Htok, Hfile. simpl.
  destruct (String.eqb_spec path EmptyString) as [|_]; [done|]. simpl.
  rewrite Hfs. reflexivity.
Qed.

(** The branch that leaves the token file alone. *)
Lemma load_config_explicit environ fs tok :
  environ !! "GODOT_TOKEN" = Some tok ->
  tok <> EmptyString ->
  _load_config environ fs =
  Returns (mkGodotConfig (resolved_url environ) tok
             (default EmptyString (environ !! "GODOT_TOKEN_FILE"))).
Proof.
  intros Htok Hne. unfold_load_config. rewrite Htok. simpl.
  destruct (String.eqb_spec tok EmptyString) as [|_]; [done|]. reflexivity.
Qed.

(** C5 (as the code has it).  When no token is given explicitly and the
    token file holds a JSON object with a [port] member, the loaded
    endpoint is [ws://127.0.0.1:] followed by that port: scheme [ws] and
    host [127.0.0.1] whatever the endpoint resolved before was.  The
    configuration is returned whenever the [token] member is a string or
    missing.  The endpoint is the resolved one with its port replaced
    exactly when the resolved one has scheme [ws] and host [127.0.0.1],
    as the default has. *)
Theorem port_override_targets_localhost environ fs path text data port :
  default EmptyString (environ !! "GODOT_TOKEN") = EmptyString ->
  environ !! "GODOT_TOKEN_FILE" = Some path ->
  path <> EmptyString ->
  fs path = File text ->
  json_loads (strip text) = Some (PDict data) ->
  data !! "port" = Some port ->
  let endpoint := ("ws://127.0.0.1:" ++ format_value port)%string in
  (forall cfg, _load_config environ fs = Returns cfg -> ws_url cfg = endpoint)
  /\ (data !! "token" = None \/ (exists s, data !! "token" = Some (PStr s)) ->
      exists cfg, _load_config environ fs = Returns cfg /\ ws_url cfg = endpoint)
  /\ (endpoint = with_port (resolved_url environ) (format_value port)
      <-> scheme_and_host (resolved_url environ) = "ws://127.0.0.1"%string)
  /\ scheme_and_host default_ws_url = "ws://127.0.0.1"%string.
Proof.
  intros Htok Hfile Hpath Hfs Hjson Hport endpoint.
  rewrite (load_config_reads_file _ _ _ _ Htok Hfile Hpath Hfs), Hjson, Hport.
  fold endpoint. split_and!.
  - intros cfg. unfold GodotConfig_new.
    destruct (dict_get data "token" _); try destruct (pydantic_str _);
      by intros [= <-].
  - intros [Hnone|[s Hs]]; unfold dict_get; rewrite ?Hnone, ?Hs; simpl; eauto.
  - unfold with_port, endpoint. split.
    + intros H. symmetry.
      apply (string_app_cancel_r _ _ (":" ++ format_value port)%string).
      exact H.
    + by intros ->.
  - reflexivity.
Qed.

(** C6. The token of the loaded configuration is, in this order of
    precedence: the token given explicitly, when it is not empty;
    otherwise, when the trimmed content of the token file decodes to a
    JSON object, the [token] member of that object if it has one (as it
    is when it is a string, as the configuration model reads it
    otherwise, which may refuse it), and the trimmed content itself, the
    JSON text, if it has none; otherwise the trimmed content itself when
    it does not decode as JSON; otherwise, with no token file named or
    none on disk, the empty token.  Content that decodes to anything but
    an object gives no token: loading raises. *)
Theorem token_resolution_precedence environ fs :
  (forall tok,
     environ !! "GODOT_TOKEN" = Some tok ->
     tok <> EmptyString ->
     exists cfg, _load_config environ fs = Returns cfg /\ token cfg = tok)
  /\ (forall path text data tok,
        default EmptyString (environ !! "GODOT_TOKEN") = EmptyString ->
        environ !! "GODOT_TOKEN_FILE" = Some path ->
        path <> EmptyString ->
        fs path = File text ->
        json_loads (strip text) = Some (PDict data) ->
        data !! "token" = Some (PStr tok) ->
        exists cfg, _load_config environ fs = Returns cfg /\ token cfg = tok)
  /\ (forall path text,
        default EmptyString (environ !! "GODOT_TOKEN") = EmptyString ->
        environ !! "GODOT_TOKEN_FILE" = Some path ->
        path <> EmptyString ->
        fs path = File text ->
        json_loads (strip text) = None ->
        exists cfg, _load_config environ fs = Returns cfg
                    /\ token cfg = strip text)
  /\ (default EmptyString (environ !! "GODOT_TOKEN") = EmptyString ->
      default EmptyString (environ !! "GODOT_TOKEN_FILE") = EmptyString
      \/ fs (default EmptyString (environ !! "GODOT_TOKEN_FILE")) = Missing ->
      exists cfg, _load_config environ fs = Returns cfg
                  /\ token cfg = EmptyString)
  /\ (forall path text data,
        default EmptyString (environ !! "GODOT_TOKEN") = EmptyString ->
        environ !! "GODOT_TOKEN_FILE" = Some path ->
        path <> EmptyString ->
        fs path = File text ->
        json_loads (strip text) = Some (PDict data) ->
        data !! "token" = None ->
        exists cfg, _load_config environ fs = Returns cfg
                    /\ token cfg = strip text)
  /\ (forall path text data v,
        default EmptyString (environ !! "GODOT_TOKEN") = EmptyString ->
        environ !! "GODOT_TOKEN_FILE" = Some path ->
        path <> EmptyString ->
        fs path = File text ->
        json_loads (strip text) = Some (PDict data) ->
        data !! "token" = Some v ->
        (forall tok, v <> PStr tok) ->
        match pydantic_str v with
        | Some tok => exists cfg, _load_config environ fs = Returns cfg
                                  /\ token cfg = tok
        | None => _load_config environ fs = Raises ValidationError
        end)
  /\ (forall path text v,
        default EmptyString (environ !! "GODOT_TOKEN") = EmptyString ->
        environ !! "GODOT_TOKEN_FILE" = Some path ->
        path <> EmptyString ->
        fs path = File text ->
        json_loads (strip text) = Some v ->
        (forall data, v <> PDict data) ->
        _load_config environ fs = Raises AttributeError).
Proof.
  split_and!.
  - intros tok Htok Hne. rewrite (load_config_explicit _ _ _ Htok Hne). eauto.
  - intros path text data tok Htok Hfile Hpath Hfs Hjson Hmember.
    rewrite (load_config_reads_file _ _ _ _ Htok Hfile Hpath Hfs), Hjson.
    unfold dict_get. rewrite Hmember. simpl. eauto.
  - intros path text Htok Hfile Hpath Hfs Hjson.
    rewrite (load_config_reads_file _ _ _ _ Htok Hfile Hpath Hfs), Hjson.
    simpl. eauto.
  - intros Htok Hnofile. unfold_load_config. rewrite Htok. simpl.
    destruct Hnofile as [->| ->]; simpl; [eauto|].
    destruct (negb _); simpl; eauto.
  - intros path text data Htok Hfile Hpath Hfs Hjson Hmember.
    rewrite (load_config_reads_file _ _ _ _ Htok Hfile Hpath Hfs), Hjson.
    unfold dict_get. rewrite Hmember. simpl. eauto.
  - intros path text data v Htok Hfile Hpath Hfs Hjson Hmember Hv.
    rewrite (load_config_reads_file _ _ _ _ Htok Hfile Hpath Hfs), Hjson.
    unfold dict_get. rewrite Hmember. simpl. unfold GodotConfig_new.
    destruct v; try (destruct (pydantic_str _); by eauto).
    by destruct (Hv s).
  - intros path text v Htok Hfile Hpath Hfs Hjson Hv.
    rewrite (load_config_reads_file _ _ _ _ Htok Hfile Hpath Hfs), Hjson.
    destruct v; try reflexivity. by destruct (Hv d).
Qed.

(** C10. With no token given explicitly, when the trimmed content of the
    token file decodes as JSON to anything but an object (a number, a
    list, a string, a boolean, null), loading the configuration raises
    [AttributeError]: no configuration is returned and the content is not
    taken as a plain token.  The same exception leaves [__init__]. *)
Theorem non_object_token_file_raises environ fs path text v :
  default EmptyString (environ !! "GODOT_TOKEN") = EmptyString ->
  environ !! "GODOT_TOKEN_FILE" = Some path ->
  path <> EmptyString ->
  fs path = File text ->
  json_loads (strip text) = Some v ->
  (forall data, v <> PDict data) ->
  _load_config environ fs = Raises AttributeError
  /\ GodotClient_init None environ fs = Raises AttributeError.
Proof.
  intros Htok Hfile Hpath Hfs Hjson Hnot.
  assert (H : _load_config environ fs = Raises AttributeError).
  { rewrite (load_config_reads_file _ _ _ _ Htok Hfile Hpath Hfs), Hjson.
    destruct v; try reflexivity. by destruct (Hnot d). }
  split; [done|]. unfold_init. by rewrite H.
Qed.

(** ** What a call and the handshake do to the environment *)

(** What a call on a connected client does to the environment: the
    connection it talks on may lose frames and go down, nothing else
    changes, and the transport sees one [send] and then [recv]s. *)
Lemma call_world method params self w h sk :
  ws self = Some h ->
  sockets w !! h = Some sk ->
  exists sk' n,
    (call method params self w).2 =
    mkWorld (<[h := sk']> (sockets w)) (server w)
            (trace w ++ ESend h (frame_of (request_id self + 1) method params)
                     :: replicate n (ERecv h))
    /\ released sk' = released sk.
Proof.
  intros Hws Hsk. unfold_call. rewrite Hws. simpl. rewrite Hsk.
  destruct (alive sk) eqn:Halive; simpl.
  - rewrite Hsk. eexists _, _. simpl.
    split; [by rewrite <- app_assoc|reflexivity].
  - exists sk, 0%nat. split; [|done].
    by rewrite (list_insert_id _ _ _ Hsk).
Qed.

Lemma closes_app h tr1 tr2 :
  closes h (tr1 ++ tr2) = (closes h tr1 + closes h tr2)%nat.
Proof. unfold closes. by rewrite List.filter_app, length_app. Qed.

Lemma closes_send_recvs h h' frame n :
  closes h (ESend h' frame :: replicate n (ERecv h')) = 0%nat.
Proof. unfold closes. simpl. induction n; simpl; done. Qed.

(** The handshake is the first request on the new connection and carries
    the next identifier. *)
Lemma connect_sends_hello self w script later :
  server w = Accepted script :: later ->
  let h := List.length (sockets w) in
  exists sk n,
    (connect self w).2 =
    mkWorld (sockets w ++ [sk]) later
            (trace w ++ EConnect (ws_url (config self))
               :: ESend h (frame_of (request_id self + 1) "auth.hello"
                             (Some (hello_params self)))
               :: replicate n (ERecv h))
    /\ released sk = false
    /\ ws (connect self w).1.2 = Some h.
Proof.
  intros Hserver h. unfold_connect. rewrite Hserver. fold h.
  set (self0 := set_ws (Some h) self).
  set (w0 := mkWorld _ later _).
  assert (Hsk : sockets w0 !! h = Some (mkSocket script true false)).
  { subst w0 h. simpl. by apply list_lookup_middle. }
  destruct (call_world "auth.hello" (Some (hello_params self0)) self0 w0 h _
              eq_refl Hsk) as (sk' & n & Hw & Hrel).
  pose proof (call_keeps_flag "auth.hello" (Some (hello_params self0)) self0 w0)
    as [Hws _].
  destruct (call "auth.hello" (Some (hello_params self0)) self0 w0)
    as [[out self1] w1].
  simpl in Hw, Hws. subst w1.
  assert (Hins : <[h := sk']> (sockets w0) = sockets w ++ [sk']).
  { subst w0 h. simpl.
    rewrite insert_app_r_alt by lia. by rewrite Nat.sub_diag. }
  repeat match goal with
         | |- context [match ?v with PNone => _ | _ => _ end] => destruct v
         | |- context [match ?v with Returns _ => _ | _ => _ end] => destruct v
         | |- context [if ?b then _ else _] => destruct b
         end.
  all: simpl in Hins; exists sk', n; rewrite Hins; simpl;
    rewrite <- app_assoc; simpl; split_and!; done.
Qed.

(** ** Identifiers on the wire *)

Lemma sent_frames_app tr1 tr2 :
  sent_frames (tr1 ++ tr2) = sent_frames tr1 ++ sent_frames tr2.
Proof. unfold sent_frames. apply omap_app. Qed.

Lemma sent_frames_recvs h n : sent_frames (replicate n (ERecv h)) = [].
Proof. induction n; simpl; done. Qed.

(** C1. On a connected client, whatever the calls of a run and however
    each ends, the frames handed to the transport are, in order, the
    requests of the calls made, the request of call number [k] carrying as
    its [id] the counter before the run plus [k], printed in decimal (it
    reads back as that number).  The numbers grow by one from call to
    call, so no identifier occurs twice.  [__init__] sets the counter to
    zero, so the handshake of a new client, the first request on its
    connection, carries ["1"].  Every call of the run is made unless one
    blocks.  The counter is the client's, not the connection's: [close]
    leaves it alone and the handshake of any connection carries the
    counter plus one, so a later connection of the same client goes on
    from where the one before stopped and does not start at ["1"]
    again. *)
Theorem call_ids_sequential calls self w h :
  ws self = Some h ->
  let '(outs, self', w') := run_calls calls self w in
  let n := List.length outs in
  let sent := expected_frames (request_id self) (take n calls) in
  sent_frames (trace w') = sent_frames (trace w) ++ sent
  /\ request_id self' = request_id self + Z.of_nat n
  /\ (n = List.length calls \/ last outs = Some Blocks)
  /\ (forall k method params,
        (k < n)%nat ->
        calls !! k = Some (method, params) ->
        let id := request_id self + Z.of_nat (S k) in
        sent !! k = Some (frame_of id method params)
        /\ request_dict id method params !! "id" = Some (PStr (str id))
        /\ int_of_str (str id) = Some id)
  /\ (forall j k : nat,
        str (request_id self + Z.of_nat (S j)) =
        str (request_id self + Z.of_nat (S k)) -> j = k)
  /\ (forall j k : nat,
        (j < k)%nat ->
        request_id self + Z.of_nat (S j) < request_id self + Z.of_nat (S k))
  /\ (forall cfg environ fs c w0 script later,
        GodotClient_init cfg environ fs = Returns c ->
        server w0 = Accepted script :: later ->
        request_id c = 0
        /\ sent_frames (trace (connect c w0).2) =
           sent_frames (trace w0)
             ++ [frame_of 1 "auth.hello" (Some (hello_params c))])
  /\ str 1 = "1"%string
  /\ (forall c w0 script later,
        server w0 = Accepted script :: later ->
        request_id (close c w0).1 = request_id c
        /\ sent_frames (trace (connect c w0).2) =
           sent_frames (trace w0)
             ++ [frame_of (request_id c + 1) "auth.hello"
                   (Some (hello_params c))]).
Proof.
  intros Hws.
  pose proof (run_calls_frames calls self w h Hws) as Hrun.
  destruct (run_calls calls self w) as [[outs self'] w'].
  destruct Hrun as (Hle & Hlast & _ & Hid & Hframes).
  split_and!; try done.
  - intros k method params Hk Hcall id. split_and!.
    + apply expected_frames_lookup. by rewrite lookup_take_lt.
    + apply request_dict_id.
    + apply int_of_str_str.
  - intros j k Hjk. apply str_inj in Hjk. lia.
  - intros j k Hjk. lia.
  - intros cfg environ fs c w0 script later Hinit Hserver.
    assert (Hzero : request_id c = 0).
    { revert Hinit. unfold_init.
      destruct cfg; [by intros [= <-]|].
      destruct (_load_config environ fs); by intros [= <-]. }
    split; [done|].
    destruct (connect_sends_hello c w0 script later Hserver)
      as (sk & n & -> & _).
    simpl. rewrite Hzero.
    change (?a :: ?b :: ?l) with ([a] ++ [b] ++ l).
    by rewrite !sent_frames_app, sent_frames_recvs, app_nil_r.
  - intros c w0 script later Hserver. split.
    { unfold close. by destruct (ws c). }
    destruct (connect_sends_hello c w0 script later Hserver)
      as (sk & n & -> & _).
    simpl.
    change (?a :: ?b :: ?l) with ([a] ++ [b] ++ l).
    by rewrite !sent_frames_app, sent_frames_recvs, app_nil_r.
Qed.

(** ** The scoped client *)

(** X9. [godot_call] against a server that accepts the connection: unless it
    blocks, the connection it opened has been closed by the time it is
    over, by exactly one [close], whether the call returned or raised. *)
Lemma godot_call_releases method params environ fs w script later cfg :
  _load_config environ fs = Returns cfg ->
  server w = Accepted script :: later ->
  let h := List.length (sockets w) in
  let '(out, w') := godot_call json_loads json_dumps repr_other pydantic_str
                      method params environ fs w in
  out <> Blocks ->
  (exists sk, sockets w' !! h = Some sk
              /\ released sk = true /\ alive sk = false)
  /\ closes h (trace w') = S (closes h (trace w)).
Proof.
  intros Hcfg Hserver h. unfold godot_call. unfold_init. rewrite Hcfg.
  set (client := mkGodotClient cfg None 0 false).
  destruct (connect_sends_hello client w script later Hserver)
    as (sk1 & n1 & Hw1 & Hrel1 & Hws1).
  fold h in Hw1, Hws1.
  destruct (connect client w) as [[out1 client1] w1].
  simpl in Hw1, Hws1. subst w1.
  set (w1 := mkWorld _ later _).
  assert (Hsk1 : sockets w1 !! h = Some sk1).
  { subst w1 h. simpl. by apply list_lookup_middle. }
  destruct (call_world method params client1 w1 h sk1 Hws1 Hsk1)
    as (sk2 & n2 & Hw2 & Hrel2).
  pose proof (call_keeps_flag method params client1 w1) as [Hws2 _].
  assert (Hfinal : forall out2 client2 w2,
    call method params client1 w1 = (out2, client2, w2) ->
    (exists sk, sockets (close client2 w2).2 !! h = Some sk
                /\ released sk = true /\ alive sk = false)
    /\ closes h (trace (close client2 w2).2) = S (closes h (trace w))).
  { intros out2 client2 w2 Hcall. rewrite Hcall in Hw2, Hws2.
    simpl in Hw2, Hws2. subst w2. unfold close. rewrite Hws2, Hws1.
    unfold ws_close. simpl.
    assert (Hlt : (h < List.length (sockets w ++ [sk1]))%nat).
    { rewrite length_app. simpl. subst h. lia. }
    rewrite list_lookup_insert_eq by exact Hlt. simpl. split.
    - eexists. rewrite list_lookup_insert_eq; [done|].
      by rewrite length_insert.
    - rewrite !closes_app. change (?a :: ?b :: ?l) with ([a] ++ b :: l).
      rewrite closes_app, !closes_send_recvs. unfold closes. simpl.
      rewrite bool_decide_eq_true_2 by done. simpl. lia. }
  destruct out1; try (intros; done);
    destruct (call method params client1 w1) as [[out2 client2] w2];
    destruct out2; try (intros; done);
    intros _; by apply (Hfinal _ _ _ eq_refl).
Qed.

(** * Further properties of the client *)

(** ** Failing and repeated handshakes *)

Lemma handle_response_terminates id response out :
  handle_response id response = Some out -> out <> Blocks.
Proof.
  unfold handle_response.
  repeat match goal with
         | |- context [match ?v with PNone => _ | _ => _ end] => destruct v
         | |- context [if ?b then _ else _] => destruct b
         end; by intros [= <-].
Qed.

Lemma handle_response_error_raises id r :
  eq_str (dict_get r "id" PNone) id = true ->
  is_Some (r !! "error") ->
  exists e, handle_response id (PDict r) = Some (Raises e).
Proof.
  intros Hid [v Hv]. unfold handle_response. rewrite Hid.
  unfold dict_has. rewrite bool_decide_eq_true_2 by (rewrite Hv; eauto).
  destruct (dict_get r "error" PNone); eauto.
Qed.

Lemma closes_cons_other h e tr :
  is_close h e = false -> closes h (e :: tr) = closes h tr.
Proof. intros He. unfold closes. simpl. by rewrite He. Qed.

Lemma closes_recvs h h' n : closes h (replicate n (ERecv h')) = 0%nat.
Proof. unfold closes. induction n; simpl; done. Qed.

Ltac no_closes :=
  rewrite ?closes_app, ?closes_cons_other, ?closes_recvs by done;
  try (unfold closes; simpl); try lia.

(** The handshake against a server that accepts the connection and sends
    a response with the identifier of [auth.hello], whatever it holds. *)
Lemma connect_handshake self w stale t r rest later out :
  server w = Accepted (stale ++ Text t :: rest) :: later ->
  Forall (mismatched (str (request_id self + 1))) stale ->
  json_loads t = Some (PDict r) ->
  handle_response (str (request_id self + 1)) (PDict r) = Some out ->
  let h := List.length (sockets w) in
  let self1 := set_request_id (request_id self + 1) (set_ws (Some h) self) in
  let flag := match out with
              | Returns result => ok_is_truthy result
              | _ => false
              end in
  connect self w =
  (Returns flag,
   if flag then set_authenticated true self1 else self1,
   mkWorld (sockets w ++ [mkSocket rest true false]) later
           (trace w ++ EConnect (ws_url (config self))
              :: ESend h (frame_of (request_id self + 1) "auth.hello"
                            (Some (hello_params self)))
              :: replicate (S (List.length stale)) (ERecv h))).
Proof.
  intros Hserver Hstale Ht Hout h self1 flag.
  pose proof (handle_response_terminates _ _ _ Hout) as Hterm.
  unfold_connect. rewrite Hserver. fold h.
  set (self0 := set_ws (Some h) self).
  set (w0 := mkWorld _ later _).
  assert (Hsk : sockets w0 !! h =
                Some (mkSocket (stale ++ Text t :: rest) true false)).
  { subst w0 h. simpl. by apply list_lookup_middle. }
  rewrite (call_matched "auth.hello" (Some (hello_params self0)) self0 w0 h
             _ stale t r rest out eq_refl Hsk eq_refl eq_refl Hstale Ht Hout).
  assert (Hins : <[h := mkSocket rest true false]> (sockets w0) =
                 sockets w ++ [mkSocket rest true false]).
  { subst w0 h. simpl.
    rewrite insert_app_r_alt by lia. by rewrite Nat.sub_diag. }
  simpl released. rewrite Hins.
  assert (Htrace : (trace w0 ++ [ESend h (frame_of (request_id self0 + 1)
                                            "auth.hello"
                                            (Some (hello_params self0)))])
                     ++ replicate (S (List.length stale)) (ERecv h) =
                   trace w ++ EConnect (ws_url (config self))
                     :: ESend h (frame_of (request_id self + 1) "auth.hello"
                                   (Some (hello_params self)))
                     :: replicate (S (List.length stale)) (ERecv h)).
  { subst w0 self0. simpl. by rewrite <- !app_assoc. }
  rewrite Htrace. subst flag.
  destruct out as [result|e|]; [|done..].
  unfold ok_is_truthy. destruct result; try done.
  by destruct (truthy _).
Qed.

Lemma connect_refused self w :
  server w = [] \/ (exists later, server w = Refused :: later) ->
  connect self w =
  (Returns false, self,
   mkWorld (sockets w) (tail (server w))
           (trace w ++ [EConnect (ws_url (config self))])).
Proof.
  intros Hserver. unfold_connect.
  by destruct Hserver as [->|[later ->]].
Qed.

(** X1. When the server refuses the connection (or nothing answers),
    [connect] answers [False] without raising and leaves the client as it
    was: no connection is created, and a client that had no handle still
    has none, so that a call made afterwards raises the usage error. *)
Theorem connect_refused_stays_disconnected self w :
  server w = [] \/ (exists later, server w = Refused :: later) ->
  let '(out, self', w') := connect self w in
  out = Returns false
  /\ self' = self
  /\ sockets w' = sockets w
  /\ trace w' = trace w ++ [EConnect (ws_url (config self))]
  /\ (ws self = None ->
      forall method params,
        call method params self' w' =
        (Raises (RuntimeError "Not connected to Godot"), self', w')).
Proof.
  intros Hserver. rewrite (connect_refused self w Hserver).
  split_and!; try done.
  intros Hws method params. by apply call_disconnected.
Qed.

(** X2. When the server answers [auth.hello] with a response that has an
    [error] member, [connect] answers [False] and does not touch the flag,
    but the client keeps the handle of the new connection, which stays
    open: nothing closes it. *)
Theorem connect_rejected_keeps_connection self w stale t r rest later :
  server w = Accepted (stale ++ Text t :: rest) :: later ->
  Forall (mismatched (str (request_id self + 1))) stale ->
  json_loads t = Some (PDict r) ->
  eq_str (dict_get r "id" PNone) (str (request_id self + 1)) = true ->
  is_Some (r !! "error") ->
  let h := List.length (sockets w) in
  let '(out, self', w') := connect self w in
  out = Returns false
  /\ authenticated self' = authenticated self
  /\ ws self' = Some h
  /\ sockets w' !! h = Some (mkSocket rest true false)
  /\ closes h (trace w') = closes h (trace w).
Proof.
  intros Hserver Hstale Ht Hid Herr h.
  destruct (handle_response_error_raises _ _ Hid Herr) as [e Hout].
  rewrite (connect_handshake self w stale t r rest later _
             Hserver Hstale Ht Hout). simpl.
  split_and!; try done.
  - by apply list_lookup_middle.
  - no_closes.
Qed.

(** X3. [connect] never lowers the flag: on a client whose flag is up it
    stays up whatever the server does, also when the new handshake is
    rejected or the connection is refused. *)
Theorem connect_never_lowers_flag self w :
  authenticated self = true ->
  authenticated (connect self w).1.2 = true.
Proof.
  intros Hflag. unfold_connect.
  destruct (server w) as [|[|script] later]; simpl; try done.
  set (self0 := set_ws _ self). set (w0 := mkWorld _ _ _).
  pose proof (call_keeps_flag "auth.hello" (Some (hello_params self0)) self0 w0)
    as [_ Hkeep].
  destruct (call "auth.hello" (Some (hello_params self0)) self0 w0)
    as [[out self1] w1].
  simpl in Hkeep.
  repeat match goal with
         | |- context [match ?v with PNone => _ | _ => _ end] => destruct v
         | |- context [match ?v with Returns _ => _ | _ => _ end] => destruct v
         | |- context [if ?b then _ else _] => destruct b
         end; simpl; congruence.
Qed.

(** X4. A second [connect] on a client that holds a connection stores the new
    handle over the old one and closes nothing: the first connection is
    still open afterwards, and [close] closes the second only. *)
Theorem second_connect_abandons_first
    self w script1 script2 later out1 self1 w1 out2 self2 w2 :
  server w = Accepted script1 :: Accepted script2 :: later ->
  connect self w = (out1, self1, w1) ->
  connect self1 w1 = (out2, self2, w2) ->
  let h1 := List.length (sockets w) in
  ws self1 = Some h1
  /\ ws self2 = Some (S h1)
  /\ (exists sk, sockets w2 !! h1 = Some sk /\ released sk = false)
  /\ closes h1 (trace w2) = closes h1 (trace w)
  /\ (exists sk, sockets (close self2 w2).2 !! h1 = Some sk
                 /\ released sk = false)
  /\ (exists sk, sockets (close self2 w2).2 !! S h1 = Some sk
                 /\ released sk = true).
Proof.
  intros Hserver Hfirst Hsecond h1.
  destruct (connect_sends_hello self w script1 (Accepted script2 :: later)
              Hserver) as (sk1 & n1 & Hw1 & Hrel1 & Hws1).
  rewrite Hfirst in Hw1, Hws1. simpl in Hw1, Hws1. fold h1 in Hw1, Hws1.
  assert (Hserver1 : server w1 = Accepted script2 :: later) by by subst w1.
  destruct (connect_sends_hello self1 w1 script2 later Hserver1)
    as (sk2 & n2 & Hw2 & Hrel2 & Hws2).
  rewrite Hsecond in Hw2, Hws2. simpl in Hw2, Hws2.
  assert (Hlen : List.length (sockets w1) = S h1).
  { subst w1. simpl. rewrite length_app. simpl. subst h1. lia. }
  rewrite Hlen in Hw2, Hws2.
  assert (Hsk1 : sockets w2 !! h1 = Some sk1).
  { subst w2 w1. simpl. rewrite lookup_app_l.
    - by apply list_lookup_middle.
    - rewrite length_app. simpl. subst h1. lia. }
  assert (Hsk2 : sockets w2 !! S h1 = Some sk2).
  { subst w2. simpl. apply list_lookup_middle. by rewrite Hlen. }
  split_and!; try done.
  - eauto.
  - subst w2 w1. simpl. no_closes.
  - unfold close. rewrite Hws2. simpl. unfold ws_close. rewrite Hsk2. simpl.
    exists sk1. split; [|done].
    rewrite list_lookup_insert_ne by lia. done.
  - unfold close. rewrite Hws2. simpl. unfold ws_close. rewrite Hsk2. simpl.
    eexists.
    split; [apply list_lookup_insert_eq; by eapply lookup_lt_Some|done].
Qed.

(** X5. [close] keeps the request counter, so the handshake of a client that
    connects again carries the next identifier, not ["1"]: the numbering
    runs on across the connections of one client. *)
Theorem reconnect_continues_numbering self w script later :
  server w = Accepted script :: later ->
  request_id (close self w).1 = request_id self
  /\ sent_frames (trace (connect (close self w).1 (close self w).2).2) =
     sent_frames (trace w)
       ++ [frame_of (request_id self + 1) "auth.hello"
             (Some (hello_params self))].
Proof.
  intros Hserver.
  assert (Hclose : request_id (close self w).1 = request_id self
                   /\ config (close self w).1 = config self
                   /\ server (close self w).2 = server w
                   /\ sent_frames (trace (close self w).2) =
                      sent_frames (trace w)).
  { unfold close. destruct (ws self); simpl; split_and!; try done.
    by rewrite sent_frames_app, app_nil_r. }
  destruct Hclose as (Hid & Hcfg & Hsrv & Hsent). split; [done|].
  rewrite Hserver in Hsrv.
  destruct (connect_sends_hello (close self w).1 (close self w).2
              script later Hsrv) as (sk & n & -> & _).
  simpl. rewrite Hid. unfold hello_params. rewrite Hcfg.
  change (?a :: ?b :: ?l) with ([a] ++ [b] ++ l).
  rewrite !sent_frames_app, sent_frames_recvs, app_nil_r, Hsent.
  reflexivity.
Qed.

(** ** Calls on a connection that misbehaves *)

Lemma recv_loop_lost id stale rest :
  Forall (mismatched id) stale ->
  recv_loop id (stale ++ Lost :: rest) =
  mkReceived (Raises ConnectionClosed) rest false (S (List.length stale)).
Proof.
  intros Hstale. rewrite recv_loop_skip by done. simpl. f_equal. lia.
Qed.

(** X6. Once [recv] has raised [ConnectionClosed], the connection is down for
    the client: the call that met the loss raises it, and the next call
    raises it again from [send], makes no [recv], and still uses up an
    identifier. *)
Theorem call_after_connection_lost
    method1 params1 method2 params2 self w h sk stale rest :
  ws self = Some h ->
  sockets w !! h = Some sk ->
  alive sk = true ->
  pending sk = stale ++ Lost :: rest ->
  Forall (mismatched (str (request_id self + 1))) stale ->
  let '(out1, self1, w1) := call method1 params1 self w in
  let '(out2, self2, w2) := call method2 params2 self1 w1 in
  out1 = Raises ConnectionClosed
  /\ sockets w1 !! h = Some (mkSocket rest false (released sk))
  /\ out2 = Raises ConnectionClosed
  /\ request_id self2 = request_id self + 2
  /\ sockets w2 = sockets w1
  /\ trace w2 =
     trace w1 ++ [ESend h (frame_of (request_id self + 2) method2 params2)].
Proof.
  intros Hws Hsk Halive Hpending Hstale.
  rewrite (call_connected _ _ _ _ _ _ Hws Hsk Halive). simpl.
  rewrite Hpending, (recv_loop_lost _ _ _ Hstale). simpl.
  assert (Hdead : <[h := mkSocket rest false (released sk)]> (sockets w) !! h =
                  Some (mkSocket rest false (released sk))).
  { apply list_lookup_insert_eq. by eapply lookup_lt_Some. }
  unfold_call. simpl. rewrite Hws, Hdead. simpl.
  replace (request_id self + 1 + 1) with (request_id self + 2) by lia.
  by split_and!.
Qed.

(** X7. A frame that is not the awaited response and cannot be skipped ends
    the call with an exception: [JSONDecodeError] for text that does not
    decode, [AttributeError] for a JSON value that is not an object and for
    a matched response whose [error] member is not an object.  The frame is
    used up, the connection stays up, and what the peer sent after it is
    left for the next call. *)
Theorem call_ends_on_bad_frame method params self w h sk stale t rest :
  ws self = Some h ->
  sockets w !! h = Some sk ->
  alive sk = true ->
  pending sk = stale ++ Text t :: rest ->
  Forall (mismatched (str (request_id self + 1))) stale ->
  let '(out, self', w') := call method params self w in
  (json_loads t = None -> out = Raises JSONDecodeError)
  /\ (forall v, json_loads t = Some v -> (forall r, v <> PDict r) ->
                out = Raises AttributeError)
  /\ (forall r v,
        json_loads t = Some (PDict r) ->
        eq_str (dict_get r "id" PNone) (str (request_id self + 1)) = true ->
        r !! "error" = Some v -> (forall error, v <> PDict error) ->
        out = Raises AttributeError)
  /\ (json_loads t = None
      \/ (exists v, json_loads t = Some v /\ forall r, v <> PDict r)
      \/ (exists r, json_loads t = Some (PDict r)
                    /\ eq_str (dict_get r "id" PNone)
                              (str (request_id self + 1)) = true) ->
      request_id self' = request_id self + 1
      /\ sockets w' !! h = Some (mkSocket rest true (released sk))).
Proof.
  intros Hws Hsk Halive Hpending Hstale.
  rewrite (call_connected _ _ _ _ _ _ Hws Hsk Halive). simpl.
  rewrite Hpending, recv_loop_skip by done. simpl.
  assert (Hin : forall sk', <[h := sk']> (sockets w) !! h = Some sk').
  { intros sk'. apply list_lookup_insert_eq. by eapply lookup_lt_Some. }
  split_and!.
  - intros Ht. by rewrite Ht.
  - intros v Ht Hv. rewrite Ht. destruct v; try done. by destruct (Hv d).
  - intros r v Ht Hid Herr Hv. rewrite Ht. simpl. rewrite Hid.
    unfold dict_has. rewrite bool_decide_eq_true_2 by (rewrite Herr; eauto).
    unfold dict_get at 1. rewrite Herr. simpl.
    destruct v; try done. by destruct (Hv d).
  - intros [Ht|[(v & Ht & Hv)|(r & Ht & Hid)]]; rewrite Ht.
    + simpl. split; [done|apply Hin].
    + destruct v; simpl; try (split; [done|apply Hin]). by destruct (Hv d).
    + destruct (handle_response_matched _ _ Hid) as [out Hout].
      rewrite Hout. simpl. split; [done|apply Hin].
Qed.

(** X8. A call works on the client's own connection only: every other
    connection and the pending answers of the server are as before, no
    connection is created and none is closed, and the client keeps its
    configuration, its handle and its flag. *)
Theorem call_touches_only_its_connection method params self w :
  let '(out, self', w') := call method params self w in
  config self' = config self
  /\ ws self' = ws self
  /\ authenticated self' = authenticated self
  /\ server w' = server w
  /\ List.length (sockets w') = List.length (sockets w)
  /\ (forall h', ws self <> Some h' -> sockets w' !! h' = sockets w !! h')
  /\ (forall h', closes h' (trace w') = closes h' (trace w)).
Proof.
  unfold_call. destruct (ws self) as [h|] eqn:Hws; [|by split_and!].
  simpl. destruct (sockets w !! h) as [sk|] eqn:Hsk; simpl.
  - destruct (alive sk); simpl.
    + rewrite Hsk. simpl. split_and!; try done.
      * by rewrite length_insert.
      * intros h' Hne. apply list_lookup_insert_ne. congruence.
      * intros h'. no_closes.
    + split_and!; try done. intros h'. no_closes.
  - split_and!; try done. intros h'. no_closes.
Qed.

(** ** The scoped client, whatever the handshake says *)

(** [godot_call] against a server that accepts the connection and answers
    the handshake: the requested call then runs on what the peer says
    next, and unless it blocks the connection is closed at the end. *)
Lemma godot_call_runs
    method params environ fs w cfg stale1 t1 r1 out1 script later :
  _load_config environ fs = Returns cfg ->
  server w = Accepted (stale1 ++ Text t1 :: script) :: later ->
  Forall (mismatched (str 1)) stale1 ->
  json_loads t1 = Some (PDict r1) ->
  handle_response (str 1) (PDict r1) = Some out1 ->
  let h := List.length (sockets w) in
  let r := recv_loop (str 2) script in
  ended r <> Blocks ->
  godot_call json_loads json_dumps repr_other pydantic_str
    method params environ fs w =
  (ended r,
   mkWorld (sockets w ++ [mkSocket (unread r) false true]) later
     (trace w ++
        (EConnect (ws_url cfg)
           :: ESend h (frame_of 1 "auth.hello"
                         (Some (hello_params (mkGodotClient cfg None 0 false))))
           :: replicate (S (List.length stale1)) (ERecv h))
        ++ (ESend h (frame_of 2 method params)
              :: replicate (recvs r) (ERecv h))
        ++ [EClose h])).
Proof.
  intros Hcfg Hserver Hstale1 Ht1 Hout1 h r Hterm.
  unfold godot_call. unfold_init. rewrite Hcfg.
  set (client := mkGodotClient cfg None 0 false).
  rewrite (connect_handshake client w stale1 t1 r1 _ later out1
             Hserver Hstale1 Ht1 Hout1).
  fold h.
  set (flag := match out1 with Returns result => ok_is_truthy result
                             | _ => false end).
  set (self1 := set_request_id (request_id client + 1) (set_ws (Some h) client)).
  set (w1 := mkWorld _ later _).
  assert (Hsk : sockets w1 !! h = Some (mkSocket script true false)).
  { subst w1 h. simpl. by apply list_lookup_middle. }
  assert (Hcall : forall c, ws c = Some h -> request_id c = 1 ->
            call method params c w1 =
            (ended r, set_request_id 2 c,
             mkWorld (sockets w ++ [mkSocket (unread r) (still_alive r) false])
               later
               ((trace w1 ++ [ESend h (frame_of 2 method params)])
                  ++ replicate (recvs r) (ERecv h)))).
  { intros c Hws Hid.
    rewrite (call_connected method params c w1 h _ Hws Hsk eq_refl).
    rewrite Hid. cbn [pending released]. fold r.
    cbv zeta. do 2 f_equal. subst w1 h. simpl.
    rewrite insert_app_r_alt by lia. by rewrite Nat.sub_diag. }
  assert (Hclose : forall c tr, ws c = Some h ->
            (close c (mkWorld (sockets w ++ [mkSocket (unread r) (still_alive r) false])
                        later tr)).2 =
            mkWorld (sockets w ++ [mkSocket (unread r) false true]) later
                    (tr ++ [EClose h])).
  { intros c tr Hws. unfold close. rewrite Hws. simpl. unfold ws_close. simpl.
    rewrite list_lookup_middle by done. simpl.
    rewrite insert_app_r_alt by (subst h; lia).
    subst h. by rewrite Nat.sub_diag. }
  assert (Htrace : ((trace w1 ++ [ESend h (frame_of 2 method params)])
                      ++ replicate (recvs r) (ERecv h))
                     ++ [EClose h] =
                   trace w ++
                     (EConnect (ws_url cfg)
                        :: ESend h (frame_of 1 "auth.hello"
                                      (Some (hello_params client)))
                        :: replicate (S (List.length stale1)) (ERecv h))
                     ++ (ESend h (frame_of 2 method params)
                           :: replicate (recvs r) (ERecv h))
                     ++ [EClose h]).
  { subst w1. cbn [trace]. rewrite <- !app_assoc. reflexivity. }
  destruct flag.
  - rewrite (Hcall (set_authenticated true self1) eq_refl eq_refl).
    destruct (ended r); [| |done];
      (rewrite (Hclose (set_request_id 2 (set_authenticated true self1)) _
                  eq_refl); simpl snd; by rewrite Htrace).
  - rewrite (Hcall self1 eq_refl eq_refl).
    destruct (ended r); [| |done];
      (rewrite (Hclose (set_request_id 2 self1) _ eq_refl); simpl snd;
       by rewrite Htrace).
Qed.

(** The same when the requested call is answered too. *)
Lemma godot_call_answered
    method params environ fs w cfg stale1 t1 r1 out1 stale2 t2 r2 out rest later :
  _load_config environ fs = Returns cfg ->
  server w = Accepted (stale1 ++ Text t1 :: stale2 ++ Text t2 :: rest) :: later ->
  Forall (mismatched (str 1)) stale1 ->
  json_loads t1 = Some (PDict r1) ->
  handle_response (str 1) (PDict r1) = Some out1 ->
  Forall (mismatched (str 2)) stale2 ->
  json_loads t2 = Some (PDict r2) ->
  handle_response (str 2) (PDict r2) = Some out ->
  let h := List.length (sockets w) in
  godot_call json_loads json_dumps repr_other pydantic_str
    method params environ fs w =
  (out,
   mkWorld (sockets w ++ [mkSocket rest false true]) later
     (trace w ++
        (EConnect (ws_url cfg)
           :: ESend h (frame_of 1 "auth.hello"
                         (Some (hello_params (mkGodotClient cfg None 0 false))))
           :: replicate (S (List.length stale1)) (ERecv h))
        ++ (ESend h (frame_of 2 method params)
              :: replicate (S (List.length stale2)) (ERecv h))
        ++ [EClose h])).
Proof.
  intros Hcfg Hserver Hstale1 Ht1 Hout1 Hstale2 Ht2 Hout h.
  pose proof (handle_response_terminates _ _ _ Hout) as Hterm.
  pose proof (godot_call_runs method params environ fs w cfg stale1 t1 r1 out1
                (stale2 ++ Text t2 :: rest) later
                Hcfg Hserver Hstale1 Ht1 Hout1) as Hruns.
  cbv zeta in Hruns.
  rewrite (recv_loop_matched _ _ _ _ _ _ Hstale2 Ht2 Hout) in Hruns.
  by apply Hruns.
Qed.

Lemma sent_frames_request h frame n :
  sent_frames (ESend h frame :: replicate n (ERecv h)) = [frame].
Proof. unfold sent_frames. simpl. f_equal. apply sent_frames_recvs. Qed.

Lemma sent_frames_hello url h frame n :
  sent_frames (EConnect url :: ESend h frame :: replicate n (ERecv h)) = [frame].
Proof. apply sent_frames_request. Qed.

(** X10. [godot_call] does not look at what [connect] answers.  Against a
    server that accepts the connection and answers [auth.hello] with
    anything carrying its identifier (ok false, an error object), the
    requested method is still sent, as request 2 on that connection, and
    its response decides the outcome; the connection is closed at the
    end. *)
Theorem godot_call_ignores_handshake_answer
    method params environ fs w cfg stale1 t1 r1 stale2 t2 r2 out rest later :
  _load_config environ fs = Returns cfg ->
  server w = Accepted (stale1 ++ Text t1 :: stale2 ++ Text t2 :: rest) :: later ->
  Forall (mismatched (str 1)) stale1 ->
  json_loads t1 = Some (PDict r1) ->
  eq_str (dict_get r1 "id" PNone) (str 1) = true ->
  Forall (mismatched (str 2)) stale2 ->
  json_loads t2 = Some (PDict r2) ->
  handle_response (str 2) (PDict r2) = Some out ->
  let h := List.length (sockets w) in
  let '(result, w') := godot_call json_loads json_dumps repr_other pydantic_str
                         method params environ fs w in
  result = out
  /\ sent_frames (trace w') =
     sent_frames (trace w)
       ++ [frame_of 1 "auth.hello"
             (Some (hello_params (mkGodotClient cfg None 0 false)));
           frame_of 2 method params]
  /\ sockets w' !! h = Some (mkSocket rest false true).
Proof.
  intros Hcfg Hserver Hstale1 Ht1 Hid1 Hstale2 Ht2 Hout h.
  destruct (handle_response_matched _ _ Hid1) as [out1 Hout1].
  rewrite (godot_call_answered method params environ fs w cfg
             stale1 t1 r1 out1 stale2 t2 r2 out rest later
             Hcfg Hserver Hstale1 Ht1 Hout1 Hstale2 Ht2 Hout).
  cbn [trace sockets].
  split_and!; [done| |by apply list_lookup_middle].
  by rewrite !sent_frames_app, sent_frames_hello, sent_frames_request.
Qed.

(** X11. When the server refuses the connection, [godot_call] raises the usage
    error of a call made without a connection; it sends nothing and has
    nothing to close. *)
Theorem godot_call_refused method params environ fs w cfg :
  _load_config environ fs = Returns cfg ->
  server w = [] \/ (exists later, server w = Refused :: later) ->
  let '(out, w') := godot_call json_loads json_dumps repr_other pydantic_str
                      method params environ fs w in
  out = Raises (RuntimeError "Not connected to Godot")
  /\ sockets w' = sockets w
  /\ trace w' = trace w ++ [EConnect (ws_url cfg)].
Proof.
  intros Hcfg Hserver. unfold godot_call. unfold_init. rewrite Hcfg.
  set (client := mkGodotClient cfg None 0 false).
  rewrite (connect_refused client w Hserver).
  by rewrite call_disconnected.
Qed.

(** * Further properties of the configuration *)

(** X12. With a token given explicitly the token file plays no part: it is not
    read, so that a port found in it does not override the endpoint and a
    file that is missing or cannot be read raises nothing. *)
Theorem explicit_token_ignores_token_file environ fs fs' tok :
  environ !! "GODOT_TOKEN" = Some tok ->
  tok <> EmptyString ->
  _load_config environ fs = _load_config environ fs'
  /\ _load_config environ fs =
     Returns (mkGodotConfig (resolved_url environ) tok
                (default EmptyString (environ !! "GODOT_TOKEN_FILE"))).
Proof.
  intros Htok Hne.
  by rewrite !(load_config_explicit _ _ _ Htok Hne).
Qed.

(** X13. A token file that is named but not on disk is no error: the
    configuration has the resolved endpoint and the empty token.  A path
    that is there but cannot be read (a directory, a file without read
    permission) raises [OSError], which neither [_load_config] nor
    [__init__] handles. *)
Theorem token_file_missing_or_unreadable environ fs path :
  default EmptyString (environ !! "GODOT_TOKEN") = EmptyString ->
  environ !! "GODOT_TOKEN_FILE" = Some path ->
  path <> EmptyString ->
  (fs path = Missing ->
   _load_config environ fs =
   Returns (mkGodotConfig (resolved_url environ) EmptyString path))
  /\ (fs path = Unreadable -> _load_config environ fs = Raises OSError)
  /\ (fs path = Unreadable ->
      GodotClient_init None environ fs = Raises OSError).
Proof.
  intros Htok Hfile Hpath.
  assert (Hgo : _load_config environ fs =
                match fs path with
                | Missing => Returns (mkGodotConfig (resolved_url environ)
                                        EmptyString path)
                | Unreadable => Raises OSError
                | File _ => _load_config environ fs
                end).
  { unfold_load_config. rewrite Htok, Hfile. simpl.
    destruct (String.eqb_spec path EmptyString) as [|_]; [done|]. simpl.
    by destruct (fs path). }
  split_and!; intros Hfs; rewrite Hfs in Hgo; try done.
  unfold_init. by rewrite Hgo.
Qed.

(** X14. A token file that holds a JSON object without a [token] member makes
    the whole trimmed content of the file the token, and one without a
    [port] member leaves the resolved endpoint as it is. *)
Theorem token_file_object_defaults environ fs path text data :
  default EmptyString (environ !! "GODOT_TOKEN") = EmptyString ->
  environ !! "GODOT_TOKEN_FILE" = Some path ->
  path <> EmptyString ->
  fs path = File text ->
  json_loads (strip text) = Some (PDict data) ->
  (data !! "token" = None ->
   exists cfg, _load_config environ fs = Returns cfg
               /\ token cfg = strip text /\ token_file cfg = path)
  /\ (data !! "port" = None ->
      forall cfg, _load_config environ fs = Returns cfg ->
                  ws_url cfg = resolved_url environ).
Proof.
  intros Htok Hfile Hpath Hfs Hjson.
  rewrite (load_config_reads_file _ _ _ _ Htok Hfile Hpath Hfs), Hjson.
  split.
  - intros Hnone. unfold dict_get. rewrite Hnone. simpl. eauto.
  - intros Hnone cfg. rewrite Hnone. unfold GodotConfig_new.
    destruct (dict_get data "token" _); try destruct (pydantic_str _);
      by intros [= <-].
Qed.

(** * Properties of the command line *)

Variable library_message : exn -> string.

Ltac unfold_commands := unfold command_json_guarded, command, fails.
Ltac unfold_node_set := unfold node_set.
Ltac unfold_node_add := unfold node_add.
Ltac unfold_resource_material := unfold resource_material.
Ltac unfold_status := unfold status, fails.
Ltac unfold_output := unfold output_error, output_result, err_data.

Local Abbreviation godot_call :=
  (godot_call json_loads json_dumps repr_other pydantic_str).
Local Abbreviation str_exn := (str_exn repr_other library_message).
Local Abbreviation err_data := (err_data repr_other library_message).
Local Abbreviation output_error := (output_error repr_other library_message).
Local Abbreviation fails := (fails repr_other library_message).
Local Abbreviation command :=
  (command json_loads json_dumps repr_other pydantic_str library_message).
Local Abbreviation command_json_guarded :=
  (command_json_guarded json_loads json_dumps repr_other pydantic_str
     library_message).
Local Abbreviation node_set :=
  (node_set json_loads json_dumps repr_other pydantic_str library_message).
Local Abbreviation node_add :=
  (node_add json_loads json_dumps repr_other pydantic_str library_message).
Local Abbreviation resource_material :=
  (resource_material json_loads json_dumps repr_other pydantic_str
     library_message).
Local Abbreviation status :=
  (status json_loads json_dumps repr_other pydantic_str library_message).

(** ** What is printed *)

(** The JSON document [output_error] prints has [ok] false and an [error]
    object.  For an error reported by the server that object has type
    [rpc_error] and the code and message of the error as they came; its
    data is passed on as [details] only when it is truthy, so that data
    such as [0], [false] or an empty list is left out.  For every other
    exception the object has type [error] and the text of the exception,
    and neither code nor details. *)
Lemma output_error_json_payload error :
  exists err,
    output_error error true =
    PrintJson (PDict (<["ok" := PBool false]> (<["error" := PDict err]> ∅)))
    /\ (forall code message data,
          error = Exn (RPCError code message data) ->
          err !! "type" = Some (PStr "rpc_error")
          /\ err !! "code" = Some code
          /\ err !! "message" = Some message
          /\ err !! "details" = (if truthy data then Some data else None))
    /\ ((forall code message data, error <> Exn (RPCError code message data)) ->
        err !! "type" = Some (PStr "error")
        /\ err !! "message" = Some (PStr (str_exn error))
        /\ err !! "code" = None
        /\ err !! "details" = None).
Proof.
  exists (err_data error). split; [done|]. split.
  - intros code message data ->. unfold_output.
    destruct (truthy data); by simplify_map_eq.
  - intros Hother. unfold_output.
    destruct error as [[]|]; try by simplify_map_eq.
    by destruct (Hother code message data).
Qed.

Lemma fails_json_contract error w : json_contract (fails error true w).
Proof.
  right. eexists. split; [reflexivity|]. right. simpl.
  split_and!; [done|by simplify_map_eq|by simplify_map_eq; eauto
              |by simplify_map_eq].
Qed.

Lemma result_json_contract data w :
  json_contract (mkRan [output_result data true] Finished w).
Proof.
  right. eexists. split; [reflexivity|]. left. simpl.
  split_and!; [done|by simplify_map_eq|by simplify_map_eq; eauto
              |by simplify_map_eq].
Qed.

Lemma hangs_json_contract w : json_contract (mkRan [] Hangs w).
Proof. by left. Qed.

(** X15. Run with [--json], every command prints exactly one JSON document
    unless it hangs: [ok] is true and [data] is there when the command
    returns, [ok] is false and [error] is there when it leaves with status
    1, and it leaves with no other status.  This holds whatever the
    environment, the token file and the server do. *)
Theorem commands_keep_json_contract method params path props parent type
    name optional node material_type environ fs w :
  json_contract (command method params true environ fs w)
  /\ json_contract (node_set path props true environ fs w)
  /\ json_contract (node_add parent type name optional true environ fs w)
  /\ json_contract
       (resource_material node material_type optional true environ fs w)
  /\ json_contract (status true environ fs w).
Proof.
  assert (Hcommand : forall m p, json_contract (command m p true environ fs w)).
  { intros m p. unfold_commands.
    destruct (godot_call m p environ fs w) as [[data|e|] w'];
      [apply result_json_contract|apply fails_json_contract
      |apply hangs_json_contract]. }
  assert (Hguarded : forall m p,
            json_contract (command_json_guarded m p true environ fs w)).
  { intros m p. unfold_commands.
    destruct (godot_call m p environ fs w) as [[data|e|] w'];
      [apply result_json_contract| |apply hangs_json_contract].
    destruct e; apply fails_json_contract. }
  split_and!.
  - apply Hcommand.
  - unfold_node_set.
    destruct (json_loads props); [apply Hguarded|apply fails_json_contract].
  - unfold_node_add.
    destruct (given optional); [|apply Hguarded].
    destruct (json_loads _); [apply Hguarded|apply fails_json_contract].
  - unfold_resource_material.
    destruct (given optional); [|apply Hcommand].
    destruct (json_loads _); [apply Hcommand|apply fails_json_contract].
  - unfold_status.
    destruct (GodotClient_init None environ fs) as [client|e|];
      [|apply fails_json_contract|apply hangs_json_contract].
    destruct (connect client w) as [[[[]|e|] client1] w1];
      [|apply result_json_contract|apply fails_json_contract
       |apply hangs_json_contract].
    destruct (call "project.get_info" None client1 w1)
      as [[[info|e|] client2] w2];
      [|apply result_json_contract|apply hangs_json_contract].
    destruct info; apply result_json_contract.
Qed.

(** ** A command from end to end *)

(** X16. A command against a server that accepts the connection, answers the
    handshake, and answers the request with a response without error:
    the result is printed (the empty object when the response has no
    result), the command returns, and the connection has been closed. *)
Theorem command_prints_result
    method params json_out environ fs w cfg
    stale1 t1 r1 stale2 t2 r2 rest later :
  _load_config environ fs = Returns cfg ->
  server w = Accepted (stale1 ++ Text t1 :: stale2 ++ Text t2 :: rest) :: later ->
  Forall (mismatched (str 1)) stale1 ->
  json_loads t1 = Some (PDict r1) ->
  eq_str (dict_get r1 "id" PNone) (str 1) = true ->
  Forall (mismatched (str 2)) stale2 ->
  json_loads t2 = Some (PDict r2) ->
  eq_str (dict_get r2 "id" PNone) (str 2) = true ->
  r2 !! "error" = None ->
  let r := command method params json_out environ fs w in
  printed r = [output_result (dict_get r2 "result" (PDict ∅)) json_out]
  /\ ended_with r = Finished
  /\ sockets (world_after r) !! List.length (sockets w) =
     Some (mkSocket rest false true).
Proof.
  intros Hcfg Hserver Hstale1 Ht1 Hid1 Hstale2 Ht2 Hid2 Herr r.
  destruct (handle_response_matched _ _ Hid1) as [out1 Hout1].
  subst r. unfold_commands.
  rewrite (godot_call_answered method params environ fs w cfg
             stale1 t1 r1 out1 stale2 t2 r2 _ rest later
             Hcfg Hserver Hstale1 Ht1 Hout1 Hstale2 Ht2
             (handle_response_result _ _ Hid2 Herr)).
  simpl. split_and!; [done..|]. by apply list_lookup_middle.
Qed.

(** X17. The same when the response to the request has an [error] object: the
    error is printed with the code, message and data of that object, the
    command leaves with status 1, and the connection has been closed.
    With [--json] the printed document carries the code and the message as
    the server sent them ([-1] and [Unknown error] for what is missing) and
    the data as [details], unless the data is falsy. *)
Theorem command_reports_rpc_error
    method params json_out environ fs w cfg
    stale1 t1 r1 stale2 t2 r2 error rest later :
  _load_config environ fs = Returns cfg ->
  server w = Accepted (stale1 ++ Text t1 :: stale2 ++ Text t2 :: rest) :: later ->
  Forall (mismatched (str 1)) stale1 ->
  json_loads t1 = Some (PDict r1) ->
  eq_str (dict_get r1 "id" PNone) (str 1) = true ->
  Forall (mismatched (str 2)) stale2 ->
  json_loads t2 = Some (PDict r2) ->
  eq_str (dict_get r2 "id" PNone) (str 2) = true ->
  r2 !! "error" = Some (PDict error) ->
  let r := command method params json_out environ fs w in
  printed r =
    [output_error
       (Exn (RPCError (dict_get error "code" (PInt (-1)))
                      (dict_get error "message" (PStr "Unknown error"))
                      (dict_get error "data" PNone)))
       json_out]
  /\ ended_with r = Exit 1
  /\ sockets (world_after r) !! List.length (sockets w) =
     Some (mkSocket rest false true)
  /\ (json_out = true ->
      exists err,
        printed r =
          [PrintJson (PDict (<["ok" := PBool false]>
                               (<["error" := PDict err]> ∅)))]
        /\ err !! "type" = Some (PStr "rpc_error")
        /\ err !! "code" = Some (dict_get error "code" (PInt (-1)))
        /\ err !! "message" =
           Some (dict_get error "message" (PStr "Unknown error"))
        /\ err !! "details" =
           (if truthy (dict_get error "data" PNone)
            then Some (dict_get error "data" PNone) else None)).
Proof.
  intros Hcfg Hserver Hstale1 Ht1 Hid1 Hstale2 Ht2 Hid2 Herr r.
  destruct (handle_response_matched _ _ Hid1) as [out1 Hout1].
  assert (Hout : handle_response (str 2) (PDict r2) =
                 Some (Raises (RPCError (dict_get error "code" (PInt (-1)))
                         (dict_get error "message" (PStr "Unknown error"))
                         (dict_get error "data" PNone)))).
  { unfold handle_response. rewrite Hid2. unfold dict_has.
    rewrite bool_decide_eq_true_2 by (rewrite Herr; eauto).
    unfold dict_get at 1. by rewrite Herr. }
  subst r. unfold_commands.
  rewrite (godot_call_answered method params environ fs w cfg
             stale1 t1 r1 out1 stale2 t2 r2 _ rest later
             Hcfg Hserver Hstale1 Ht1 Hout1 Hstale2 Ht2 Hout).
  cbn [printed ended_with world_after sockets].
  split_and!; [done|done|by apply list_lookup_middle|].
  intros ->.
  destruct (output_error_json_payload
              (Exn (RPCError (dict_get error "code" (PInt (-1)))
                             (dict_get error "message" (PStr "Unknown error"))
                             (dict_get error "data" PNone))))
    as (err & Hprint & Hrpc & _).
  exists err. rewrite Hprint. split; [done|].
  by apply Hrpc.
Qed.

(** X18. [node_set] reports [Invalid JSON] in two cases that the terminal does
    not tell apart.  When the properties given on the command line do not
    decode, nothing is sent: the environment is untouched.  When they do
    decode but the frame the server sends in answer to the request does
    not, the exception of the client is caught by the same handler, and
    the report is again [Invalid JSON] followed by the text of the decoding
    error, although the request has gone out. *)
Theorem node_set_blames_properties_for_bad_frame
    path props properties json_out environ fs w cfg
    stale1 t1 r1 stale2 t2 rest later :
  json_loads props = Some properties ->
  _load_config environ fs = Returns cfg ->
  server w = Accepted (stale1 ++ Text t1 :: stale2 ++ Text t2 :: rest) :: later ->
  Forall (mismatched (str 1)) stale1 ->
  json_loads t1 = Some (PDict r1) ->
  eq_str (dict_get r1 "id" PNone) (str 1) = true ->
  Forall (mismatched (str 2)) stale2 ->
  json_loads t2 = None ->
  let blamed text :=
    output_error (ValueError ("Invalid JSON: " ++ text)%string) json_out in
  let r := node_set path props json_out environ fs w in
  (exists text, printed r = [blamed text])
  /\ ended_with r = Exit 1
  /\ sent_frames (trace (world_after r)) <> sent_frames (trace w)
  /\ (forall props',
        json_loads props' = None ->
        exists text,
          node_set path props' json_out environ fs w =
          mkRan [blamed text] (Exit 1) w).
Proof.
  intros Hprops Hcfg Hserver Hstale1 Ht1 Hid1 Hstale2 Ht2 blamed r.
  destruct (handle_response_matched _ _ Hid1) as [out1 Hout1].
  split_and!.
  4: { intros props' Hbad. unfold_node_set. rewrite Hbad. by eexists. }
  all: subst r; unfold_node_set; rewrite Hprops; unfold_commands.
  all: pose proof (godot_call_runs "scene.set_node_properties"
         (Some (<["node_path" := PStr path]>
                  (<["properties" := properties]> ∅)))
         environ fs w cfg stale1 t1 r1 out1
         (stale2 ++ Text t2 :: rest) later
         Hcfg Hserver Hstale1 Ht1 Hout1) as Hruns;
       cbv zeta in Hruns;
       rewrite recv_loop_skip in Hruns by done;
       simpl in Hruns; rewrite Ht2 in Hruns; simpl in Hruns;
       rewrite Hruns by done.
  - by eexists.
  - done.
  - cbn [world_after trace].
    rewrite !sent_frames_app. cbn [sent_frames omap app].
    intros Heq. apply (f_equal List.length) in Heq.
    rewrite !length_app in Heq. simpl in Heq. lia.
Qed.

(** ** The status command *)

Lemma call_keeps_config method params self w :
  config (call method params self w).1.2 = config self.
Proof.
  destruct (ws self) as [h|] eqn:Hws.
  - pose proof (call_step method params self w h Hws) as Hstep.
    destruct (call method params self w) as [[out self'] w'].
    by destruct Hstep as [-> _].
  - by rewrite call_disconnected.
Qed.

Lemma connect_keeps_config self w : config (connect self w).1.2 = config self.
Proof.
  unfold_connect.
  destruct (server w) as [|[|script] later]; simpl; try done.
  set (self0 := set_ws _ self). set (w0 := mkWorld _ _ _).
  pose proof (call_keeps_config "auth.hello" (Some (hello_params self0)) self0 w0)
    as Hkeep.
  destruct (call "auth.hello" (Some (hello_params self0)) self0 w0)
    as [[out self1] w1].
  simpl in Hkeep.
  repeat match goal with
         | |- context [match ?v with PNone => _ | _ => _ end] => destruct v
         | |- context [match ?v with Returns _ => _ | _ => _ end] => destruct v
         | |- context [if ?b then _ else _] => destruct b
         end; simpl; congruence.
Qed.

Lemma output_result_inj a b json_out :
  output_result a json_out = output_result b json_out -> a = b.
Proof.
  unfold output_result. destruct json_out; [|by intros [= ->]].
  intros Heq.
  apply (f_equal (fun o => match o with
                           | PrintJson (PDict m) => m !! "data"
                           | _ => None
                           end)) in Heq.
  by simplify_map_eq.
Qed.

Lemma output_error_not_result error data json_out :
  output_error error json_out <> output_result data json_out.
Proof.
  unfold_output. destruct json_out; [|done].
  intros Heq.
  apply (f_equal (fun o => match o with
                           | PrintJson (PDict m) => m !! "ok"
                           | _ => None
                           end)) in Heq.
  by simplify_map_eq.
Qed.

(** X19. [status] leaves with status 1 only when loading the configuration
    raises.  A server that cannot be reached, refuses the connection or
    rejects the handshake never makes it fail: unless it hangs, [status]
    then returns normally. *)
Theorem status_fails_only_on_configuration json_out environ fs w :
  (ended_with (status json_out environ fs w) = Exit 1
   <-> exists e, _load_config environ fs = Raises e)
  /\ (forall code,
        ended_with (status json_out environ fs w) = Exit code -> code = 1).
Proof.
  unfold_status. unfold_init.
  destruct (_load_config environ fs) as [cfg|e|]; simpl.
  2: { split; [split; eauto|]. by intros code [= <-]. }
  2: { split; [split; [done|by intros [? ?]]|done]. }
  set (client := mkGodotClient cfg None 0 false).
  pose proof (connect_outcome client w) as Hout.
  destruct (connect client w) as [[[[]|e|] client1] w1]; simpl.
  - destruct (call "project.get_info" None client1 w1)
      as [[[info|e|] client2] w2]; simpl;
      try destruct info; simpl;
      (split; [split; [done|by intros [? ?]]|done]).
  - split; [split; [done|by intros [? ?]]|done].
  - destruct Hout as (Hnever & _). by destruct (Hnever e).
  - split; [split; [done|by intros [? ?]]|done].
Qed.

(** X20. Whatever [status] reports, it never reports a connection without
    authentication: a report with [connected] true has [authenticated]
    true and the endpoint of the loaded configuration, and the only other
    report is the one that says [connected] false and nothing else. *)
Theorem status_report_is_consistent json_out environ fs w result :
  printed (status json_out environ fs w) =
    [output_result (PDict result) json_out] ->
  (result !! "connected" = Some (PBool true)
   /\ result !! "authenticated" = Some (PBool true)
   /\ exists cfg, _load_config environ fs = Returns cfg
                  /\ result !! "ws_url" = Some (PStr (ws_url cfg)))
  \/ result = <["connected" := PBool false]> ∅.
Proof.
  unfold_status. unfold_init.
  destruct (_load_config environ fs) as [cfg|e|]; simpl;
    [|intros [= H]; by apply output_error_not_result in H|done].
  set (client := mkGodotClient cfg None 0 false).
  pose proof (connect_outcome client w) as Hout.
  pose proof (connect_keeps_config client w) as Hcfg.
  destruct (connect client w) as [[[[]|e|] client1] w1]; simpl in *.
  - destruct Hout as (_ & Hflag & _). rewrite (Hflag eq_refl), Hcfg.
    assert (Hbase : forall result',
      PDict result' = PDict result ->
      (result' !! "connected" = Some (PBool true)
       /\ result' !! "authenticated" = Some (PBool true)
       /\ result' !! "ws_url" = Some (PStr (ws_url cfg))) ->
      (result !! "connected" = Some (PBool true)
       /\ result !! "authenticated" = Some (PBool true)
       /\ exists cfg0, Returns cfg = Returns cfg0
                       /\ result !! "ws_url" = Some (PStr (ws_url cfg0)))
      \/ result = <["connected" := PBool false]> ∅).
    { intros result' [= ->] (H1 & H2 & H3). left. eauto. }
    destruct (call "project.get_info" None client1 w1)
      as [[[info|e|] client2] w2]; simpl; [| |done].
    + destruct info; intros [= H]; apply output_result_inj in H;
        (eapply Hbase; [exact H|by simplify_map_eq]).
    + intros [= H]. apply output_result_inj in H.
      eapply Hbase; [exact H|by simplify_map_eq].
  - intros [= H]. apply output_result_inj in H. right. congruence.
  - intros [= H]. by apply output_error_not_result in H.
  - done.
Qed.

(** X21. When the server accepts the connection but the handshake does not
    succeed (an error object, or a result whose ok is not truthy),
    [status] reports [connected] false and returns normally, and the
    connection it opened is left open: [close] is not called on it. *)
Theorem status_leaves_rejected_connection_open
    json_out environ fs w cfg stale t r out rest later :
  _load_config environ fs = Returns cfg ->
  server w = Accepted (stale ++ Text t :: rest) :: later ->
  Forall (mismatched (str 1)) stale ->
  json_loads t = Some (PDict r) ->
  handle_response (str 1) (PDict r) = Some out ->
  match out with Returns result => ok_is_truthy result | _ => false end = false ->
  let h := List.length (sockets w) in
  let ran := status json_out environ fs w in
  printed ran = [output_result (PDict (<["connected" := PBool false]> ∅)) json_out]
  /\ ended_with ran = Finished
  /\ sockets (world_after ran) !! h = Some (mkSocket rest true false)
  /\ closes h (trace (world_after ran)) = closes h (trace w).
Proof.
  intros Hcfg Hserver Hstale Ht Hout Hflag h ran.
  subst ran. unfold_status. unfold_init. rewrite Hcfg.
  rewrite (connect_handshake (mkGodotClient cfg None 0 false) w stale t r rest
             later out Hserver Hstale Ht Hout).
  rewrite Hflag. cbn [printed ended_with world_after sockets trace].
  split_and!; try done.
  - by apply list_lookup_middle.
  - no_closes.
Qed.

(** X22. When the handshake succeeds, [status] asks for the project
    information and reports whatever comes of it: the report has the
    project name when that call returns an object (the name [unknown] when
    the object has none) and no project member when the call raises or
    returns something else.  Either way, unless that call blocks,
    [status] returns normally and the connection has been closed. *)
Theorem status_reports_and_closes
    json_out environ fs w cfg stale t r script later :
  _load_config environ fs = Returns cfg ->
  server w = Accepted (stale ++ Text t :: script) :: later ->
  Forall (mismatched (str 1)) stale ->
  json_loads t = Some (PDict r) ->
  eq_str (dict_get r "id" PNone) (str 1) = true ->
  r !! "error" = None ->
  ok_is_truthy (dict_get r "result" (PDict ∅)) = true ->
  let h := List.length (sockets w) in
  let answer := recv_loop (str 2) script in
  ended answer <> Blocks ->
  let ran := status json_out environ fs w in
  exists result,
    printed ran = [output_result (PDict result) json_out]
    /\ ended_with ran = Finished
    /\ result !! "connected" = Some (PBool true)
    /\ result !! "project" =
       match ended answer with
       | Returns (PDict info) => Some (dict_get info "name" (PStr "unknown"))
       | _ => None
       end
    /\ sockets (world_after ran) !! h =
       Some (mkSocket (unread answer) false true)
    /\ closes h (trace (world_after ran)) = S (closes h (trace w)).
Proof.
  intros Hcfg Hserver Hstale Ht Hid Herr Hok h answer Hterm ran.
  subst ran. unfold_status. unfold_init. rewrite Hcfg.
  set (client := mkGodotClient cfg None 0 false).
  rewrite (connect_handshake client w stale t r script later _
             Hserver Hstale Ht (handle_response_result _ _ Hid Herr)).
  rewrite Hok. fold h.
  set (self1 := set_authenticated true _).
  set (w1 := mkWorld _ later _).
  assert (Hsk : sockets w1 !! h = Some (mkSocket script true false)).
  { subst w1 h. simpl. by apply list_lookup_middle. }
  rewrite (call_connected "project.get_info" None self1 w1 h _
             eq_refl Hsk eq_refl).
  cbn [pending released request_id self1 set_authenticated
       set_request_id set_ws client Z.add Pos.add Pos.succ].
  cbv zeta. change (0 + 1 + 1) with 2.
  change (recv_loop (str 2) script) with answer.
  assert (Hins : <[h := mkSocket (unread answer) (still_alive answer) false]>
                   (sockets w1) =
                 sockets w ++ [mkSocket (unread answer) (still_alive answer) false]).
  { subst w1 h. simpl.
    rewrite insert_app_r_alt by lia. by rewrite Nat.sub_diag. }
  rewrite Hins.
  assert (Hclose : forall c tr, ws c = Some h ->
            (close c (mkWorld (sockets w ++ [mkSocket (unread answer)
                                               (still_alive answer) false])
                        later tr)).2 =
            mkWorld (sockets w ++ [mkSocket (unread answer) false true]) later
                    (tr ++ [EClose h])).
  { intros c tr Hws. unfold close. rewrite Hws. simpl. unfold ws_close. simpl.
    rewrite list_lookup_middle by done. simpl.
    rewrite insert_app_r_alt by (subst h; lia).
    subst h. by rewrite Nat.sub_diag. }
  assert (Hcloses : forall n method,
            closes h ((((trace w1 ++ [ESend h method]) ++ replicate n (ERecv h)))
                        ++ [EClose h]) = S (closes h (trace w))).
  { intros n method. subst w1. cbn [trace]. no_closes.
    rewrite bool_decide_eq_true_2 by done. simpl. lia. }
  destruct (ended answer) as [info|e|]; [| |done].
  - destruct info;
      (eexists; cbn [printed ended_with world_after];
       rewrite Hclose by done; cbn [sockets trace];
       split_and!;
       [reflexivity|done|by simplify_map_eq|by simplify_map_eq
       |by apply list_lookup_middle|apply Hcloses]).
  - eexists. cbn [printed ended_with world_after].
    rewrite Hclose by done. cbn [sockets trace].
    split_and!;
      [reflexivity|done|by simplify_map_eq|by simplify_map_eq
      |by apply list_lookup_middle|apply Hcloses].
Qed.

End Properties.

(** * The properties at work on the samples *)

Local Open Scope list_scope.

Lemma stale_frames_mismatched (id : string) :
  id <> "7"%string ->
  Forall (mismatched sample_loads id) stale_frames.
Proof.
  intros Hid. unfold stale_frames.
  apply Forall_cons. split.
  { exists doc_stale, obj_stale. split_and!; [done|by vm_compute|].
    unfold eq_str. change (dict_get obj_stale "id" PNone) with (PStr "7").
    by apply bool_decide_eq_false_2. }
  apply Forall_cons. split; [|apply Forall_nil_2].
  exists doc_notify, obj_notify. split_and!; [done|by vm_compute|done].
Qed.

(** C8 on a client fresh from [__init__], with a connection around that it
    does not hold. *)
Lemma call_before_connect_raises_witness :
  ws fresh_client = None
  /\ call sample_loads sample_dumps "project.get_info" None fresh_client
          (world_with [Text doc_hello_ok]) =
     (Raises (RuntimeError "Not connected to Godot"), fresh_client,
      world_with [Text doc_hello_ok]).
Proof.
  split; [reflexivity|].
  apply (call_before_connect_raises sample_loads sample_dumps sample_repr
           sample_pydantic "project.get_info" None fresh_client
           (world_with [Text doc_hello_ok]) eq_refl).
Defined.

(** C2 with two frames ahead of the answer to request 1. *)
Lemma call_discards_mismatched_witness :
  ws open_client = Some 0%nat
  /\ Forall (mismatched sample_loads (str 1)) stale_frames
  /\ call sample_loads sample_dumps "auth.hello" None open_client
          (world_with (stale_frames ++ [Text doc_hello_ok; Lost])) =
     (Returns (PDict {[ "ok" := PBool true; "editor_version" := PStr "4.3" ]}),
      set_request_id 1 open_client,
      mkWorld [mkSocket [Lost] true false] []
        (ESend 0 (sample_dumps (PDict (request_dict 1 "auth.hello" None)))
           :: replicate 3 (ERecv 0)))
  /\ (call sample_loads sample_dumps "auth.hello" None open_client
           (world_with stale_frames)).1.1 = Blocks.
Proof.
  assert (Hstale : Forall (mismatched sample_loads (str 1)) stale_frames)
    by (by apply stale_frames_mismatched).
  split; [reflexivity|]. split; [exact Hstale|]. split.
  - destruct (call_discards_mismatched sample_loads sample_dumps "auth.hello"
                None open_client
                (world_with (stale_frames ++ [Text doc_hello_ok; Lost]))
                0%nat _ stale_frames eq_refl eq_refl eq_refl Hstale)
      as [Hanswer _].
    destruct (Hanswer doc_hello_ok obj_hello_ok [Lost] eq_refl
                ltac:(by vm_compute) ltac:(by vm_compute))
      as (out & Hout & Hcall).
    rewrite Hcall. vm_compute in Hout. injection Hout as <-. reflexivity.
  - apply (call_discards_mismatched sample_loads sample_dumps "auth.hello"
             None open_client (world_with stale_frames)
             0%nat _ stale_frames eq_refl eq_refl eq_refl Hstale).
    reflexivity.
Defined.

(** C3: the second call of a client gets the answer of the scenario of the
    specification, error -32601 without data; a first call gets an error
    with a data member. *)
Lemma call_error_raises_rpc_error_witness :
  Forall (mismatched sample_loads (str 2)) stale_frames
  /\ sample_loads doc_error = Some (PDict obj_error)
  /\ obj_error !! "error" = Some (PDict obj_method_not_found)
  /\ (call sample_loads sample_dumps "project.get_info" None
           (set_request_id 1 open_client)
           (world_with (stale_frames ++ [Text doc_error]))).1.1 =
     Raises (RPCError (PInt (-32601)) (PStr "Method not found") PNone)
  /\ (call sample_loads sample_dumps "editor.save_all" None open_client
           (world_with [Text doc_error_1])).1.1 =
     Raises (RPCError (PInt (-32000)) (PStr "Busy") (PList [PInt 1])).
Proof.
  assert (Hstale : Forall (mismatched sample_loads (str 2)) stale_frames)
    by (by apply stale_frames_mismatched).
  split; [exact Hstale|]. split; [by vm_compute|]. split; [by vm_compute|].
  split.
  - apply (call_error_raises_rpc_error sample_loads sample_dumps
             "project.get_info" None (set_request_id 1 open_client)
             (world_with (stale_frames ++ [Text doc_error])) 0%nat _
             stale_frames doc_error obj_error [] obj_method_not_found
             eq_refl eq_refl eq_refl eq_refl Hstale
             ltac:(by vm_compute) ltac:(by vm_compute) ltac:(by vm_compute));
      by vm_compute.
  - apply (call_error_raises_rpc_error sample_loads sample_dumps
             "editor.save_all" None open_client
             (world_with [Text doc_error_1]) 0%nat _
             [] doc_error_1 obj_error_1 [] obj_busy
             eq_refl eq_refl eq_refl eq_refl (Forall_nil_2 _)
             ltac:(by vm_compute) ltac:(by vm_compute) ltac:(by vm_compute));
      by vm_compute.
Defined.

(** C7 (as the code has it): a result that is there, a response without
    one, and a response whose [error] member is [null]. *)
Lemma call_returns_result_witness :
  obj_hello_ok !! "error" = None
  /\ (call sample_loads sample_dumps "auth.hello" None open_client
           (world_with (stale_frames ++ [Text doc_hello_ok]))).1.1 =
     Returns (PDict {[ "ok" := PBool true; "editor_version" := PStr "4.3" ]})
  /\ obj_bare !! "result" = None
  /\ (call sample_loads sample_dumps "editor.save_all" None open_client
           (world_with (stale_frames ++ [Text doc_bare]))).1.1 =
     Returns (PDict ∅)
  /\ obj_null_error !! "error" = Some PNone
  /\ (call edge_loads sample_dumps "auth.hello" None open_client
           (world_with [Text doc_null_error])).1.1 = Raises AttributeError.
Proof.
  assert (Hstale : Forall (mismatched sample_loads (str 1)) stale_frames)
    by (by apply stale_frames_mismatched).
  split; [by vm_compute|]. split.
  { pose proof (call_returns_result sample_loads sample_dumps
                  "auth.hello" None open_client
                  (world_with (stale_frames ++ [Text doc_hello_ok])) 0%nat _
                  stale_frames doc_hello_ok obj_hello_ok []
                  eq_refl eq_refl eq_refl eq_refl Hstale
                  ltac:(by vm_compute) ltac:(by vm_compute)) as H.
    cbv zeta in H. destruct H as (Hreturns & _).
    destruct (Hreturns ltac:(by vm_compute)) as (Hresult & _).
    apply Hresult. by vm_compute. }
  split; [by vm_compute|]. split.
  { pose proof (call_returns_result sample_loads sample_dumps
                  "editor.save_all" None open_client
                  (world_with (stale_frames ++ [Text doc_bare])) 0%nat _
                  stale_frames doc_bare obj_bare []
                  eq_refl eq_refl eq_refl eq_refl Hstale
                  ltac:(by vm_compute) ltac:(by vm_compute)) as H.
    cbv zeta in H. destruct H as (Hreturns & _).
    destruct (Hreturns ltac:(by vm_compute)) as (_ & Hempty).
    apply Hempty. by vm_compute. }
  split; [by vm_compute|].
  pose proof (call_returns_result edge_loads sample_dumps
                "auth.hello" None open_client
                (world_with [Text doc_null_error]) 0%nat _
                [] doc_null_error obj_null_error []
                eq_refl eq_refl eq_refl eq_refl (Forall_nil_2 _)
                ltac:(by vm_compute) ltac:(by vm_compute)) as H.
  cbv zeta in H. destruct H as (_ & Hraises & _).
  apply (Hraises PNone); [by vm_compute|done].
Defined.

(** C7 as worded fails: a response whose [error] member is [null] has no
    error object and carries a result, and the call does not return it. *)
Lemma null_error_member_loses_result :
  ~ response_without_error_object_returns_result edge_loads sample_dumps
      "auth.hello" None open_client (world_with [Text doc_null_error]).
Proof.
  intros Hclaim.
  specialize (Hclaim 0%nat _ [] doc_null_error obj_null_error []
                eq_refl eq_refl eq_refl eq_refl (Forall_nil_2 _)
                ltac:(by vm_compute) ltac:(by vm_compute)).
  assert (Hnone : ~ has_error_object obj_null_error).
  { intros [error Herror]. vm_compute in Herror. discriminate Herror. }
  specialize (Hclaim Hnone).
  vm_compute in Hclaim. discriminate Hclaim.
Qed.

(** C1 (as the code has it): three calls on a client that holds a
    connection; the second raises, the third blocks, and the frames sent
    carry 1, 2, 3.  A client that has connected once and closed carries 2
    in the handshake of its second connection. *)
Lemma call_ids_sequential_witness :
  ws open_client = Some 0%nat
  /\ sent_frames (trace (run_calls edge_loads sample_dumps
                           [("auth.hello", None); ("project.get_info", None);
                            ("editor.save_all", None)]
                           open_client
                           (world_with [Text doc_hello_ok; Text doc_error;
                                        Text doc_stale])).2) =
     [sample_dumps (PDict (request_dict 1 "auth.hello" None));
      sample_dumps (PDict (request_dict 2 "project.get_info" None));
      sample_dumps (PDict (request_dict 3 "editor.save_all" None))]
  /\ request_dict 3 "editor.save_all" None !! "id" = Some (PStr "3")
  /\ sent_frames (trace (connect edge_loads sample_dumps reconnecting.1
                           reconnecting.2).2) =
     [sample_dumps (PDict (request_dict 1 "auth.hello"
                             (Some (hello_params fresh_client))));
      sample_dumps (PDict (request_dict 2 "auth.hello"
                             (Some (hello_params fresh_client))))].
Proof.
  split; [reflexivity|].
  pose proof (call_ids_sequential edge_loads sample_dumps sample_repr
                sample_pydantic
                [("auth.hello", None); ("project.get_info", None);
                 ("editor.save_all", None)]
                open_client
                (world_with [Text doc_hello_ok; Text doc_error; Text doc_stale])
                0%nat eq_refl) as H.
  destruct (run_calls _ _ _ _ _) as [[outs self'] w'] eqn:Hrun.
  destruct H as (Hsent & _ & _ & Hid & _ & _ & _ & _ & Hagain).
  assert (Houts : outs = [Returns (PDict {[ "ok" := PBool true;
                                           "editor_version" := PStr "4.3" ]});
                          Raises (RPCError (PInt (-32601))
                                    (PStr "Method not found") PNone);
                          Blocks]).
  { apply (f_equal (fun x => x.1.1)) in Hrun. simpl in Hrun. rewrite <- Hrun.
    by vm_compute. }
  rewrite Houts in Hsent, Hid. split_and!.
  - exact Hsent.
  - destruct (Hid 2%nat "editor.save_all" None) as (_ & Hthird & _);
      [simpl; lia|reflexivity|]. exact Hthird.
  - destruct (Hagain reconnecting.1 reconnecting.2 [Text doc_hello_ok_2] []
                ltac:(by vm_compute)) as (_ & Hhello).
    rewrite Hhello. by vm_compute.
Defined.

(** C1 as worded fails: the second connection of a client does not start
    at ["1"]. *)
Lemma second_connection_does_not_start_at_one :
  ~ numbering_starts_at_one_per_connection edge_loads sample_dumps
      reconnecting.1 reconnecting.2.
Proof.
  intros Hclaim.
  specialize (Hclaim [Text doc_hello_ok_2] [] ltac:(by vm_compute)).
  vm_compute in Hclaim. discriminate Hclaim.
Qed.

(** C9: closing an authenticated client, then closing again. *)
Lemma close_idempotent_witness :
  consistent (set_authenticated true open_client)
  /\ close (set_authenticated true open_client) (world_with [Text doc_stale]) =
     (fresh_client,
      mkWorld [mkSocket [Text doc_stale] false true] [] [EClose 0])
  /\ close fresh_client
           (mkWorld [mkSocket [Text doc_stale] false true] [] [EClose 0]) =
     (fresh_client,
      mkWorld [mkSocket [Text doc_stale] false true] [] [EClose 0]).
Proof.
  assert (Hok : consistent (set_authenticated true open_client))
    by (intros _; by eexists).
  split; [exact Hok|].
  pose proof (close_idempotent (set_authenticated true open_client)
                (world_with [Text doc_stale]) Hok) as H.
  split; [reflexivity|].
  change (close (set_authenticated true open_client)
            (world_with [Text doc_stale]))
    with (fresh_client,
          mkWorld [mkSocket [Text doc_stale] false true] [] [EClose 0]) in H.
  apply H.
Defined.



(** C5 (as the code has it) on the default endpoint. *)
Lemma port_override_targets_localhost_witness :
  default EmptyString (file_environ !! "GODOT_TOKEN") = EmptyString
  /\ file_environ !! "GODOT_TOKEN_FILE" = Some sample_token_path
  /\ sample_token_path <> EmptyString
  /\ sample_loads (strip doc_token_file) = Some (PDict obj_token_file)
  /\ obj_token_file !! "port" = Some (PInt 5000)
  /\ exists cfg,
       _load_config sample_loads sample_repr sample_pydantic file_environ
         (sample_fs doc_token_file) = Returns cfg
       /\ ws_url cfg = "ws://127.0.0.1:5000"%string.
Proof.
  split; [by vm_compute|]. split; [by vm_compute|]. split; [done|].
  split; [by vm_compute|]. split; [by vm_compute|].
  apply (port_override_targets_localhost sample_loads sample_repr
           sample_pydantic file_environ (sample_fs doc_token_file)
           sample_token_path doc_token_file obj_token_file (PInt 5000)
           ltac:(by vm_compute) ltac:(by vm_compute) ltac:(done)
           ltac:(by vm_compute) ltac:(by vm_compute) ltac:(by vm_compute)).
  right. exists "secret"%string. by vm_compute.
Defined.

(** C5 as worded fails: with a secure remote endpoint resolved from the
    environment, the port of the token file comes with scheme [ws] and host
    [127.0.0.1], not with those of the resolved endpoint. *)
Lemma port_override_drops_host_and_scheme :
  ~ port_override_preserves_endpoint sample_loads sample_repr sample_pydantic
      remote_environ (sample_fs doc_token_file).
Proof.
  intros Hclaim.
  specialize (Hclaim doc_token_file obj_token_file (PInt 5000)
                (mkGodotConfig "ws://127.0.0.1:5000" "secret" sample_token_path)
                ltac:(by vm_compute) ltac:(by vm_compute)
                ltac:(by vm_compute) ltac:(by vm_compute)).
  vm_compute in Hclaim. discriminate Hclaim.
Qed.

(** C6 (as the code has it) on the sources of a token: the four of the
    specification, and a token file that holds an object without a
    [token] member. *)
Lemma token_resolution_precedence_witness :
  (exists cfg,
     _load_config sample_loads sample_repr sample_pydantic explicit_environ
       (sample_fs doc_token_file) = Returns cfg /\ token cfg = "abc"%string)
  /\ (exists cfg,
        _load_config sample_loads sample_repr sample_pydantic file_environ
          (sample_fs doc_token_file) = Returns cfg
        /\ token cfg = "secret"%string)
  /\ (exists cfg,
        _load_config sample_loads sample_repr sample_pydantic file_environ
          (sample_fs "  plain-token ") = Returns cfg
        /\ token cfg = "plain-token"%string)
  /\ (exists cfg,
        _load_config sample_loads sample_repr sample_pydantic ∅
          (sample_fs doc_token_file) = Returns cfg
        /\ token cfg = EmptyString)
  /\ (exists cfg,
        _load_config cli_loads sample_repr sample_pydantic file_environ
          (sample_fs doc_props) = Returns cfg
        /\ token cfg = strip doc_props).
Proof.
  split_and!.
  - apply (token_resolution_precedence sample_loads sample_repr sample_pydantic
             explicit_environ (sample_fs doc_token_file)); by vm_compute.
  - apply (token_resolution_precedence sample_loads sample_repr sample_pydantic
             file_environ (sample_fs doc_token_file))
      with (path := sample_token_path) (text := doc_token_file)
           (data := obj_token_file); by vm_compute.
  - apply (token_resolution_precedence sample_loads sample_repr sample_pydantic
             file_environ (sample_fs "  plain-token "))
      with (path := sample_token_path) (text := "  plain-token "%string);
      by vm_compute.
  - apply (token_resolution_precedence sample_loads sample_repr sample_pydantic
             ∅ (sample_fs doc_token_file)); [by vm_compute|].
    left. by vm_compute.
  - destruct (token_resolution_precedence cli_loads sample_repr sample_pydantic
                file_environ (sample_fs doc_props))
      as (_ & _ & _ & _ & Hwhole & _).
    apply (Hwhole sample_token_path doc_props obj_props); by vm_compute.
Defined.

(** C6 as worded fails: a token file that holds a JSON object without a
    [token] member gives a token that is none of the four: the JSON text
    itself. *)
Lemma object_without_token_gives_its_text :
  ~ token_from_listed_sources cli_loads sample_repr sample_pydantic
      file_environ (sample_fs doc_props).
Proof.
  intros Hclaim.
  specialize (Hclaim (mkGodotConfig default_ws_url doc_props sample_token_path)
                ltac:(by vm_compute)).
  cbv zeta in Hclaim.
  assert (Hthere : sample_fs doc_props
                     (default EmptyString (file_environ !! "GODOT_TOKEN_FILE")) =
                   File doc_props) by (by vm_compute).
  rewrite Hthere in Hclaim.
  destruct Hclaim as [[Hexplicit _]|[(text & data & Hfile & Hjson & Htoken)
                     |[(text & Hfile & Hjson & _)|Hempty]]].
  - by apply Hexplicit.
  - injection Hfile as <-.
    assert (data = obj_props) as ->.
    { assert (Hprops : cli_loads (strip doc_props) = Some (PDict obj_props))
        by (by vm_compute).
      congruence. }
    vm_compute in Htoken. discriminate Htoken.
  - injection Hfile as <-.
    assert (Hprops : cli_loads (strip doc_props) = Some (PDict obj_props))
      by (by vm_compute).
    congruence.
  - vm_compute in Hempty. discriminate Hempty.
Qed.

(** C10 on a token file that holds a bare number. *)
Lemma non_object_token_file_raises_witness :
  default EmptyString (file_environ !! "GODOT_TOKEN") = EmptyString
  /\ sample_loads (strip "42") = Some (PInt 42)
  /\ _load_config sample_loads sample_repr sample_pydantic file_environ
       (sample_fs "42") = Raises AttributeError
  /\ GodotClient_init sample_loads sample_repr sample_pydantic None
       file_environ (sample_fs "42") = Raises AttributeError.
Proof.
  split; [by vm_compute|]. split; [by vm_compute|].
  apply (non_object_token_file_raises sample_loads sample_repr sample_pydantic
           file_environ (sample_fs "42") sample_token_path "42" (PInt 42));
    by vm_compute.
Defined.

(** * The further properties at work on the samples *)

(** A refused connection, then a call. *)
Lemma connect_refused_stays_disconnected_witness :
  (exists later, server (mkWorld [] [Refused] []) = Refused :: later)
  /\ (connect sample_loads sample_dumps fresh_client
        (mkWorld [] [Refused] [])).1 = (Returns false, fresh_client)
  /\ trace (connect sample_loads sample_dumps fresh_client
              (mkWorld [] [Refused] [])).2 = [EConnect default_ws_url].
Proof.
  split; [by eexists|].
  pose proof (connect_refused_stays_disconnected sample_loads sample_dumps
                fresh_client (mkWorld [] [Refused] [])
                (or_intror (ex_intro _ [] eq_refl))) as H.
  destruct (connect _ _ _ _) as [[out self'] w'].
  destruct H as (-> & -> & _ & Htrace & _). by split.
Defined.

(** A handshake answered with an error object. *)
Lemma connect_rejected_keeps_connection_witness :
  is_Some (obj_error_1 !! "error")
  /\ (connect sample_loads sample_dumps fresh_client
        (world_accepting [Text doc_error_1; Text doc_stale])).1.1 = Returns false
  /\ sockets (connect sample_loads sample_dumps fresh_client
                (world_accepting [Text doc_error_1; Text doc_stale])).2 !! 0%nat =
     Some (mkSocket [Text doc_stale] true false).
Proof.
  assert (Herr : is_Some (obj_error_1 !! "error")) by (by vm_compute; eexists).
  split; [exact Herr|].
  pose proof (connect_rejected_keeps_connection sample_loads sample_dumps
                fresh_client (world_accepting [Text doc_error_1; Text doc_stale])
                [] doc_error_1 obj_error_1 [Text doc_stale] []
                eq_refl (Forall_nil_2 _) ltac:(by vm_compute)
                ltac:(by vm_compute) Herr) as H.
  cbv zeta in H.
  destruct (connect _ _ _ _) as [[out self'] w'].
  destruct H as (-> & _ & _ & Hsk & _). by split.
Defined.

(** A rejected handshake on a client whose flag is up. *)
Lemma connect_never_lowers_flag_witness :
  authenticated (set_authenticated true fresh_client) = true
  /\ (connect sample_loads sample_dumps (set_authenticated true fresh_client)
        (world_accepting [Text doc_error_1])).1.1 = Returns false
  /\ authenticated
       (connect sample_loads sample_dumps (set_authenticated true fresh_client)
          (world_accepting [Text doc_error_1])).1.2 = true.
Proof.
  split; [reflexivity|]. split; [by vm_compute|].
  by apply (connect_never_lowers_flag sample_loads sample_dumps
              (set_authenticated true fresh_client)
              (world_accepting [Text doc_error_1])).
Defined.

(** Two connections in a row, then [close]. *)
Lemma second_connect_abandons_first_witness :
  let w := mkWorld [] [Accepted [Text doc_hello_ok];
                       Accepted [Text doc_hello_yes]] [] in
  let first := connect sample_loads sample_dumps fresh_client w in
  let second := connect sample_loads sample_dumps first.1.2 first.2 in
  ws second.1.2 = Some 1%nat
  /\ (exists sk, sockets (close second.1.2 second.2).2 !! 0%nat = Some sk
                 /\ released sk = false).
Proof.
  intros w first second.
  assert (Htriple : forall p : outcome bool * GodotClient * world,
            p = (p.1.1, p.1.2, p.2)) by (by intros [[? ?] ?]).
  destruct (second_connect_abandons_first sample_loads sample_dumps
              fresh_client w [Text doc_hello_ok] [Text doc_hello_yes] []
              first.1.1 first.1.2 first.2 second.1.1 second.1.2 second.2
              eq_refl (Htriple first) (Htriple second))
    as (_ & Hws & _ & _ & Hopen & _).
  by split.
Defined.

(** A client that made one call, closes and connects again. *)
Lemma reconnect_continues_numbering_witness :
  server (world_accepting [Text doc_hello_ok]) =
    Accepted [Text doc_hello_ok] :: []
  /\ sent_frames
       (trace (connect sample_loads sample_dumps
                 (close (set_request_id 1 open_client)
                    (world_accepting [Text doc_hello_ok])).1
                 (close (set_request_id 1 open_client)
                    (world_accepting [Text doc_hello_ok])).2).2) =
     [sample_dumps (PDict (request_dict 2 "auth.hello"
                             (Some (hello_params open_client))))].
Proof.
  split; [reflexivity|].
  apply (reconnect_continues_numbering sample_loads sample_dumps
           (set_request_id 1 open_client)
           (world_accepting [Text doc_hello_ok]) [Text doc_hello_ok] [] eq_refl).
Defined.

(** The connection is lost during the first call. *)
Lemma call_after_connection_lost_witness :
  pending (mkSocket [Lost; Text doc_info] true false) = [] ++ Lost :: [Text doc_info]
  /\ (call sample_loads sample_dumps "project.get_info" None open_client
        (world_with [Lost; Text doc_info])).1.1 = Raises ConnectionClosed
  /\ (call sample_loads sample_dumps "editor.save_all" None
        (call sample_loads sample_dumps "project.get_info" None open_client
           (world_with [Lost; Text doc_info])).1.2
        (call sample_loads sample_dumps "project.get_info" None open_client
           (world_with [Lost; Text doc_info])).2).1.1 = Raises ConnectionClosed.
Proof.
  split; [reflexivity|].
  pose proof (call_after_connection_lost sample_loads sample_dumps
                "project.get_info" None "editor.save_all" None open_client
                (world_with [Lost; Text doc_info]) 0%nat _ [] [Text doc_info]
                eq_refl eq_refl eq_refl eq_refl (Forall_nil_2 _)) as H.
  destruct (call _ _ "project.get_info" _ _ _) as [[out1 self1] w1].
  simpl. destruct (call _ _ "editor.save_all" _ _ _) as [[out2 self2] w2].
  destruct H as (-> & _ & -> & _). by split.
Defined.

(** A frame that is not JSON ahead of the answer. *)
Lemma call_ends_on_bad_frame_witness :
  cli_loads garbage = None
  /\ (call cli_loads sample_dumps "project.get_info" None
        (set_request_id 1 open_client)
        (world_with [Text garbage; Text doc_info])).1.1 = Raises JSONDecodeError
  /\ sockets (call cli_loads sample_dumps "project.get_info" None
                (set_request_id 1 open_client)
                (world_with [Text garbage; Text doc_info])).2 !! 0%nat =
     Some (mkSocket [Text doc_info] true false).
Proof.
  assert (Hbad : cli_loads garbage = None) by (by vm_compute).
  split; [exact Hbad|].
  pose proof (call_ends_on_bad_frame cli_loads sample_dumps
                "project.get_info" None (set_request_id 1 open_client)
                (world_with [Text garbage; Text doc_info]) 0%nat _ []
                garbage [Text doc_info]
                eq_refl eq_refl eq_refl eq_refl (Forall_nil_2 _)) as H.
  destruct (call _ _ _ _ _ _) as [[out self'] w'].
  destruct H as (Hout & _ & _ & Hrest). simpl. split.
  - by apply Hout.
  - by apply Hrest; left.
Defined.

(** The handshake is answered with ok false and the call goes out all the
    same. *)
Lemma godot_call_ignores_handshake_answer_witness :
  cli_loads doc_hello_no = Some (PDict obj_hello_no)
  /\ (godot_call cli_loads sample_dumps sample_repr sample_pydantic
        "project.get_info" None ∅ no_files
        (world_accepting [Text doc_hello_no; Text doc_info])).1 =
     Returns (PDict {[ "name" := PStr "Demo" ]})
  /\ sent_frames
       (trace (godot_call cli_loads sample_dumps sample_repr sample_pydantic
                 "project.get_info" None ∅ no_files
                 (world_accepting [Text doc_hello_no; Text doc_info])).2) =
     [sample_dumps (PDict (request_dict 1 "auth.hello"
                             (Some (hello_params
                                      (mkGodotClient default_config None 0 false)))));
      sample_dumps (PDict (request_dict 2 "project.get_info" None))].
Proof.
  split; [by vm_compute|].
  pose proof (godot_call_ignores_handshake_answer cli_loads sample_dumps
                sample_repr sample_pydantic "project.get_info" None ∅ no_files
                (world_accepting [Text doc_hello_no; Text doc_info])
                default_config [] doc_hello_no obj_hello_no [] doc_info obj_info
                (Returns (PDict {[ "name" := PStr "Demo" ]})) [] []
                ltac:(by vm_compute) eq_refl (Forall_nil_2 _)
                ltac:(by vm_compute) ltac:(by vm_compute) (Forall_nil_2 _)
                ltac:(by vm_compute) ltac:(by vm_compute)) as H.
  cbv zeta in H.
  destruct (godot_call _ _ _ _ _ _ _ _ _) as [result w'].
  destruct H as (-> & Hsent & _). by split.
Defined.

(** Nobody listens. *)
Lemma godot_call_refused_witness :
  _load_config sample_loads sample_repr sample_pydantic ∅ no_files =
    Returns default_config
  /\ (godot_call sample_loads sample_dumps sample_repr sample_pydantic
        "project.get_info" None ∅ no_files (mkWorld [] [] [])).1 =
     Raises (RuntimeError "Not connected to Godot")
  /\ trace (godot_call sample_loads sample_dumps sample_repr sample_pydantic
              "project.get_info" None ∅ no_files (mkWorld [] [] [])).2 =
     [EConnect default_ws_url].
Proof.
  assert (Hcfg : _load_config sample_loads sample_repr sample_pydantic ∅
                   no_files = Returns default_config) by (by vm_compute).
  split; [exact Hcfg|].
  pose proof (godot_call_refused sample_loads sample_dumps sample_repr
                sample_pydantic "project.get_info" None ∅ no_files
                (mkWorld [] [] []) default_config Hcfg (or_introl eq_refl)) as H.
  destruct (godot_call _ _ _ _ _ _ _ _ _) as [out w'].
  destruct H as (-> & _ & Htrace). by split.
Defined.

(** The call raises and the connection is closed all the same. *)
Lemma godot_call_releases_witness :
  _load_config cli_loads sample_repr sample_pydantic ∅ no_files =
    Returns default_config
  /\ (godot_call cli_loads sample_dumps sample_repr sample_pydantic
        "project.get_info" None ∅ no_files
        (world_accepting [Text doc_hello_ok; Text garbage])).1 =
     Raises JSONDecodeError
  /\ closes 0 (trace (godot_call cli_loads sample_dumps sample_repr
                        sample_pydantic "project.get_info" None ∅ no_files
                        (world_accepting [Text doc_hello_ok; Text garbage])).2) =
     1%nat.
Proof.
  assert (Hcfg : _load_config cli_loads sample_repr sample_pydantic ∅
                   no_files = Returns default_config) by (by vm_compute).
  split; [exact Hcfg|].
  assert (Hout : (godot_call cli_loads sample_dumps sample_repr sample_pydantic
                    "project.get_info" None ∅ no_files
                    (world_accepting [Text doc_hello_ok; Text garbage])).1 =
                 Raises JSONDecodeError) by (by vm_compute).
  split; [exact Hout|].
  pose proof (godot_call_releases cli_loads sample_dumps sample_repr
                sample_pydantic "project.get_info" None ∅ no_files
                (world_accepting [Text doc_hello_ok; Text garbage])
                [Text doc_hello_ok; Text garbage] [] default_config
                Hcfg eq_refl) as H.
  cbv zeta in H.
  destruct (godot_call _ _ _ _ _ _ _ _ _) as [out w'].
  simpl in Hout. subst out. by apply H.
Defined.

(** The token of the environment wins over a file that cannot be read. *)
Lemma explicit_token_ignores_token_file_witness :
  explicit_environ !! "GODOT_TOKEN" = Some "abc"%string
  /\ _load_config sample_loads sample_repr sample_pydantic explicit_environ
       (fun _ => Unreadable) =
     Returns (mkGodotConfig default_ws_url "abc" sample_token_path).
Proof.
  split; [by vm_compute|].
  apply (explicit_token_ignores_token_file sample_loads sample_repr
           sample_pydantic explicit_environ (fun _ => Unreadable)
           (sample_fs doc_token_file) "abc" ltac:(by vm_compute) ltac:(done)).
Defined.

(** The token file is named and is not there. *)
Lemma token_file_missing_or_unreadable_witness :
  file_environ !! "GODOT_TOKEN_FILE" = Some sample_token_path
  /\ _load_config sample_loads sample_repr sample_pydantic file_environ
       no_files =
     Returns (mkGodotConfig default_ws_url EmptyString sample_token_path)
  /\ _load_config sample_loads sample_repr sample_pydantic file_environ
       (fun _ => Unreadable) = Raises OSError.
Proof.
  split; [by vm_compute|].
  destruct (token_file_missing_or_unreadable sample_loads sample_repr
              sample_pydantic file_environ no_files sample_token_path
              ltac:(by vm_compute) ltac:(by vm_compute) ltac:(done))
    as (Hmissing & _).
  destruct (token_file_missing_or_unreadable sample_loads sample_repr
              sample_pydantic file_environ (fun _ => Unreadable)
              sample_token_path
              ltac:(by vm_compute) ltac:(by vm_compute) ltac:(done))
    as (_ & Hunreadable & _).
  split; [by apply Hmissing|by apply Hunreadable].
Defined.

(** A token file that holds an object with neither token nor port. *)
Lemma token_file_object_defaults_witness :
  cli_loads (strip doc_props) = Some (PDict obj_props)
  /\ obj_props !! "token" = None
  /\ exists cfg,
       _load_config cli_loads sample_repr sample_pydantic file_environ
         (sample_fs doc_props) = Returns cfg
       /\ token cfg = strip doc_props /\ token_file cfg = sample_token_path.
Proof.
  split; [by vm_compute|]. split; [by vm_compute|].
  apply (token_file_object_defaults cli_loads sample_repr sample_pydantic
           file_environ (sample_fs doc_props) sample_token_path doc_props
           obj_props ltac:(by vm_compute) ltac:(by vm_compute) ltac:(done)
           ltac:(by vm_compute) ltac:(by vm_compute)).
  by vm_compute.
Defined.

(** A command that gets its answer. *)
Lemma command_prints_result_witness :
  obj_info !! "error" = None
  /\ printed (command cli_loads sample_dumps sample_repr sample_pydantic
                sample_message "project.get_info" None true ∅ no_files
                (world_accepting [Text doc_hello_ok; Text doc_info])) =
     [PrintJson (PDict {[ "ok" := PBool true;
                          "data" := PDict {[ "name" := PStr "Demo" ]} ]})].
Proof.
  split; [by vm_compute|].
  destruct (command_prints_result cli_loads sample_dumps sample_repr
              sample_pydantic sample_message "project.get_info" None true
              ∅ no_files (world_accepting [Text doc_hello_ok; Text doc_info])
              default_config [] doc_hello_ok obj_hello_ok [] doc_info obj_info
              [] []
              ltac:(by vm_compute) eq_refl (Forall_nil_2 _)
              ltac:(by vm_compute) ltac:(by vm_compute) (Forall_nil_2 _)
              ltac:(by vm_compute) ltac:(by vm_compute) ltac:(by vm_compute))
    as (Hprinted & _).
  rewrite Hprinted. by vm_compute.
Defined.

(** A command whose request the server answers with an error. *)
Lemma command_reports_rpc_error_witness :
  obj_error !! "error" = Some (PDict obj_method_not_found)
  /\ ended_with (command cli_loads sample_dumps sample_repr sample_pydantic
                   sample_message "project.get_info" None true ∅ no_files
                   (world_accepting [Text doc_hello_ok; Text doc_error])) =
     Exit 1
  /\ printed (command cli_loads sample_dumps sample_repr sample_pydantic
                sample_message "project.get_info" None true ∅ no_files
                (world_accepting [Text doc_hello_ok; Text doc_error])) =
     [PrintJson
        (PDict {[ "ok" := PBool false;
                  "error" := PDict {[ "type" := PStr "rpc_error";
                                      "code" := PInt (-32601);
                                      "message" := PStr "Method not found" ]} ]})].
Proof.
  split; [by vm_compute|].
  destruct (command_reports_rpc_error cli_loads sample_dumps sample_repr
              sample_pydantic sample_message "project.get_info" None true
              ∅ no_files (world_accepting [Text doc_hello_ok; Text doc_error])
              default_config [] doc_hello_ok obj_hello_ok [] doc_error obj_error
              obj_method_not_found [] []
              ltac:(by vm_compute) eq_refl (Forall_nil_2 _)
              ltac:(by vm_compute) ltac:(by vm_compute) (Forall_nil_2 _)
              ltac:(by vm_compute) ltac:(by vm_compute) ltac:(by vm_compute))
    as (Hprinted & Hended & _).
  split; [exact Hended|]. rewrite Hprinted. by vm_compute.
Defined.

(** Good properties, and a frame from the server that is not JSON. *)
Lemma node_set_blames_properties_for_bad_frame_witness :
  cli_loads doc_props = Some (PDict obj_props)
  /\ cli_loads garbage = None
  /\ (exists text,
        printed (node_set cli_loads sample_dumps sample_repr sample_pydantic
                   sample_message "Player" doc_props false ∅ no_files
                   (world_accepting [Text doc_hello_ok; Text garbage])) =
        [ConsoleText ("[red]Error:[/red] Invalid JSON: " ++ text)])
  /\ ended_with (node_set cli_loads sample_dumps sample_repr sample_pydantic
                   sample_message "Player" doc_props false ∅ no_files
                   (world_accepting [Text doc_hello_ok; Text garbage])) =
     Exit 1.
Proof.
  split; [by vm_compute|]. split; [by vm_compute|].
  destruct (node_set_blames_properties_for_bad_frame cli_loads sample_dumps
              sample_repr sample_pydantic sample_message "Player" doc_props
              (PDict obj_props) false ∅ no_files
              (world_accepting [Text doc_hello_ok; Text garbage])
              default_config [] doc_hello_ok obj_hello_ok [] garbage [] []
              ltac:(by vm_compute) ltac:(by vm_compute) eq_refl
              (Forall_nil_2 _) ltac:(by vm_compute) ltac:(by vm_compute)
              (Forall_nil_2 _) ltac:(by vm_compute))
    as ([text Hprinted] & Hended & _).
  split; [exists text; exact Hprinted|exact Hended].
Defined.

(** What [status] prints against a server that answers. *)
Lemma status_report_is_consistent_witness :
  printed (status cli_loads sample_dumps sample_repr sample_pydantic
             sample_message false ∅ no_files
             (world_accepting [Text doc_hello_ok; Text doc_info])) =
    [output_result
       (PDict {[ "connected" := PBool true; "authenticated" := PBool true;
                 "ws_url" := PStr default_ws_url;
                 "project" := PStr "Demo" ]}) false]
  /\ ({[ "connected" := PBool true; "authenticated" := PBool true;
         "ws_url" := PStr default_ws_url;
         "project" := PStr "Demo" ]} : pydict) !! "authenticated" =
     Some (PBool true).
Proof.
  assert (Hprinted :
    printed (status cli_loads sample_dumps sample_repr sample_pydantic
               sample_message false ∅ no_files
               (world_accepting [Text doc_hello_ok; Text doc_info])) =
    [output_result
       (PDict {[ "connected" := PBool true; "authenticated" := PBool true;
                 "ws_url" := PStr default_ws_url;
                 "project" := PStr "Demo" ]}) false]) by (by vm_compute).
  split; [exact Hprinted|].
  destruct (status_report_is_consistent cli_loads sample_dumps sample_repr
              sample_pydantic sample_message false ∅ no_files
              (world_accepting [Text doc_hello_ok; Text doc_info]) _ Hprinted)
    as [(_ & Hauth & _)|Hno].
  - exact Hauth.
  - apply (f_equal (fun m : pydict => m !! "connected")) in Hno.
    by vm_compute in Hno.
Defined.

(** The handshake is answered with ok false. *)
Lemma status_leaves_rejected_connection_open_witness :
  handle_response (str 1) (PDict obj_hello_no) =
    Some (Returns (PDict {[ "ok" := PBool false ]}))
  /\ printed (status cli_loads sample_dumps sample_repr sample_pydantic
                sample_message true ∅ no_files
                (world_accepting [Text doc_hello_no; Text doc_info])) =
     [PrintJson (PDict {[ "ok" := PBool true;
                          "data" := PDict {[ "connected" := PBool false ]} ]})]
  /\ sockets (world_after
                (status cli_loads sample_dumps sample_repr sample_pydantic
                   sample_message true ∅ no_files
                   (world_accepting [Text doc_hello_no; Text doc_info])))
       !! 0%nat = Some (mkSocket [Text doc_info] true false).
Proof.
  assert (Hout : handle_response (str 1) (PDict obj_hello_no) =
                 Some (Returns (PDict {[ "ok" := PBool false ]})))
    by (by vm_compute).
  split; [exact Hout|].
  destruct (status_leaves_rejected_connection_open cli_loads sample_dumps
              sample_repr sample_pydantic sample_message true ∅ no_files
              (world_accepting [Text doc_hello_no; Text doc_info])
              default_config [] doc_hello_no obj_hello_no _ [Text doc_info] []
              ltac:(by vm_compute) eq_refl (Forall_nil_2 _)
              ltac:(by vm_compute) Hout ltac:(by vm_compute))
    as (Hprinted & _ & Hopen & _).
  split; [|exact Hopen]. rewrite Hprinted. by vm_compute.
Defined.

(** The handshake succeeds and the project information is an answer that
    is not JSON. *)
Lemma status_reports_and_closes_witness :
  ended (recv_loop cli_loads (str 2) [Text garbage]) = Raises JSONDecodeError
  /\ ended_with (status cli_loads sample_dumps sample_repr sample_pydantic
                   sample_message false ∅ no_files
                   (world_accepting [Text doc_hello_ok; Text garbage])) =
     Finished
  /\ sockets (world_after
                (status cli_loads sample_dumps sample_repr sample_pydantic
                   sample_message false ∅ no_files
                   (world_accepting [Text doc_hello_ok; Text garbage])))
       !! 0%nat = Some (mkSocket [] false true).
Proof.
  assert (Hended : ended (recv_loop cli_loads (str 2) [Text garbage]) =
                   Raises JSONDecodeError) by (by vm_compute).
  split; [exact Hended|].
  destruct (status_reports_and_closes cli_loads sample_dumps sample_repr
              sample_pydantic sample_message false ∅ no_files
              (world_accepting [Text doc_hello_ok; Text garbage])
              default_config [] doc_hello_ok obj_hello_ok [Text garbage] []
              ltac:(by vm_compute) eq_refl (Forall_nil_2 _)
              ltac:(by vm_compute) ltac:(by vm_compute) ltac:(by vm_compute)
              ltac:(by vm_compute) ltac:(by rewrite Hended))
    as (result & _ & Hfinished & _ & _ & Hclosed & _).
  split; [exact Hfinished|]. exact Hclosed.
Defined.
